(** * keybase_chat: the chat screen's merge, poll and command logic

    A shallow embedding of [keybase_chat.py].  Python [str] values are
    modelled as [string], one [ascii] per code point below 256; the
    character classes used by [str.strip], [str.split], [str.lower],
    [str.splitlines] and the regular expression [\d] are the ones Python
    assigns to those code points.  The set [seen_ids] is a [gset string].
    Calls to the [keybase] executable and the other effects of the screen
    are recorded, in order, in the application state. *)

From Stdlib Require Import ZArith NArith Ascii String List Bool Sorted Lia.
From stdpp Require Import base gmap sets list strings.

#[local] Set Warnings "-clear-no-such-hyp".

(** ** Python string primitives *)

Module Py.

Definition ord (c : ascii) : N := N_of_ascii c.

Definition between (lo hi n : N) : bool := (lo <=? n)%N && (n <=? hi)%N.

(** [str.isspace] on one code point below 256. *)
Definition isspace (c : ascii) : bool :=
  between 9 13 (ord c) || between 28 32 (ord c)
  || (ord c =? 133)%N || (ord c =? 160)%N.

(** [\d] on one code point below 256: the ASCII digits. *)
Definition isdigit (c : ascii) : bool := between 48 57 (ord c).

(** Line boundaries of [str.splitlines] below 256. *)
Definition islinebreak (c : ascii) : bool :=
  between 10 13 (ord c) || between 28 30 (ord c) || (ord c =? 133)%N.

Definition lower_char (c : ascii) : ascii :=
  if between 65 90 (ord c)
     || (between 192 222 (ord c) && negb (ord c =? 215)%N)
  then ascii_of_N (ord c + 32)
  else c.

Fixpoint lower (s : string) : string :=
  match s with
  | EmptyString => EmptyString
  | String c s' => String (lower_char c) (lower s')
  end.

Fixpoint lstrip (s : string) : string :=
  match s with
  | EmptyString => EmptyString
  | String c s' => if isspace c then lstrip s' else s
  end.

Fixpoint rstrip (s : string) : string :=
  match s with
  | EmptyString => EmptyString
  | String c s' =>
      match rstrip s' with
      | EmptyString => if isspace c then EmptyString else String c EmptyString
      | r => String c r
      end
  end.

(** [s.strip()] *)
Definition strip (s : string) : string := rstrip (lstrip s).

(** [s.startswith(p)] *)
Fixpoint startswith (p s : string) : bool :=
  match p, s with
  | EmptyString, _ => true
  | String a p', String b s' => Ascii.eqb a b && startswith p' s'
  | String _ _, EmptyString => false
  end.

(** The longest prefix without white space, and what follows it. *)
Fixpoint span_word (s : string) : string * string :=
  match s with
  | EmptyString => (EmptyString, EmptyString)
  | String c s' =>
      if isspace c then (EmptyString, s)
      else let (w, r) := span_word s' in (String c w, r)
  end.

(** [s.split(maxsplit=1)]: white-space separated, at most one split. *)
Definition split_maxsplit1 (s : string) : list string :=
  match lstrip s with
  | EmptyString => []
  | s1 =>
      let (w, r) := span_word s1 in
      match lstrip r with
      | EmptyString => [w]
      | r1 => [w; r1]
      end
  end.

(** [s.split(sep)] for a one-character separator; [cur] is the piece
    being read. *)
Fixpoint split_from (sep : ascii) (cur s : string) : list string :=
  match s with
  | EmptyString => [cur]
  | String c s' =>
      if Ascii.eqb c sep then cur :: split_from sep EmptyString s'
      else split_from sep (cur +:+ String c EmptyString) s'
  end.

Definition split (sep : ascii) (s : string) : list string :=
  split_from sep EmptyString s.

(** [sep.join(l)] *)
Definition join (sep : string) (l : list string) : string :=
  String.concat sep l.

(** [s.splitlines()]: a carriage return followed by a line feed is one
    boundary, and no empty last line is produced. *)
Fixpoint splitlines_from (cur s : string) : list string :=
  match s with
  | EmptyString =>
      match cur with EmptyString => [] | _ => [cur] end
  | String c s' =>
      if islinebreak c then
        match s' with
        | String d s'' =>
            if (ord c =? 13)%N && (ord d =? 10)%N
            then cur :: splitlines_from EmptyString s''
            else cur :: splitlines_from EmptyString s'
        | EmptyString => cur :: splitlines_from EmptyString s'
        end
      else splitlines_from (cur +:+ String c EmptyString) s'
  end.

Definition splitlines (s : string) : list string :=
  splitlines_from EmptyString s.

(** The longest prefix of digits, and what follows it. *)
Fixpoint span_digits (s : string) : string * string :=
  match s with
  | EmptyString => (EmptyString, EmptyString)
  | String c s' =>
      if isdigit c then let (d, r) := span_digits s' in (String c d, r)
      else (EmptyString, s)
  end.

(** [re.match(r"\[(\d+)\]", line)], returning [m.group(1)].  The digits
    are matched greedily and a closing bracket must follow the whole
    run, since no digit is a bracket. *)
Definition re_match_id (line : string) : option string :=
  match line with
  | String c rest =>
      if Ascii.eqb c "["%char then
        match span_digits rest with
        | (String d ds, String e _) =>
            if Ascii.eqb e "]"%char then Some (String d ds) else None
        | _ => None
        end
      else None
  | EmptyString => None
  end.

(** [h in s] for strings: [h] occurs in [s]. *)
Fixpoint contains (h s : string) : bool :=
  startswith h s
  || match s with
     | EmptyString => false
     | String _ s' => contains h s'
     end.

(** [s.replace(old, new)] for a non-empty [old]: occurrences are replaced
    from the left and do not overlap; [skip] counts the characters of the
    occurrence just replaced that are still to pass. *)
Fixpoint replace_from (skip : nat) (old new s : string) : string :=
  match s with
  | EmptyString => EmptyString
  | String c s' =>
      match skip with
      | S k => replace_from k old new s'
      | O =>
          if startswith old s
          then new +:+ replace_from (String.length old - 1) old new s'
          else String c (replace_from 0 old new s')
      end
  end.

(** With an empty [old], [new] goes before every character and at the
    end. *)
Fixpoint replace_empty (new s : string) : string :=
  match s with
  | EmptyString => new
  | String c s' => new +:+ String c (replace_empty new s')
  end.

Definition replace (old new s : string) : string :=
  match old with
  | EmptyString => replace_empty new s
  | String _ _ => replace_from 0 old new s
  end.

End Py.

(** ** Data model *)

(** The [channel] dictionary of a conversation summary; a missing key is
    [None]. *)
Record Channel := {
  members_type : option string;
  name : option string;
  topic_name : option string
}.

(** A conversation summary as returned by the list operation. *)
Record Conversation := {
  conv_id : option string;
  channel : option Channel
}.

(** The configuration keys read by the chat screen. *)
Record Config := {
  read_at_least : option Z;
  download_path : option string
}.

(** [conv.get("channel", {})] *)
Definition get_channel (conv : Conversation) : Channel :=
  default {| members_type := None; name := None; topic_name := None |}
          (channel conv).

Definition is_team (ch : Channel) : bool :=
  match members_type ch with
  | Some t => String.eqb t "team"
  | None => false
  end.

Definition conversation_display_name (conv : Conversation) (current_user : string)
  : string :=
  let ch := get_channel conv in
  if is_team ch then
    "Team: " +:+ default "unknown" (name ch)
      +:+ " (Topic: " +:+ default "unknown" (topic_name ch) +:+ ")"
  else
    let names := default "" (name ch) in
    let names_list := map Py.strip (Py.split "," names) in
    let filtered := List.filter (fun n => negb (String.eqb n current_user)) names_list in
    let filtered := match filtered with [] => names_list | _ => filtered end in
    Py.join "," filtered.

Definition get_conversation_spec (conv : Conversation) : string :=
  let ch := get_channel conv in
  if is_team ch then
    default "" (name ch) +:+ "," +:+ default "" (topic_name ch)
  else default "" (name ch).

(** ** The backend and the other effects *)

(** One run of the [keybase] executable, by its arguments:
    [ReadAtLeast n spec] is [chat read --at-least n spec],
    [ReadSince t spec] is [chat read --since t spec],
    [ApiSend cid body] is [chat api -m] with the [send] payload,
    [Upload spec path] is [chat upload spec path] and
    [Download spec fid out] is [chat download spec fid --outfile out]. *)
Inductive Call :=
| ReadAtLeast (at_least : Z) (spec : string)
| ReadSince (since : Z) (spec : string)
| ApiSend (conversation_id : option string) (body : string)
| Upload (spec path : string)
| Download (spec file_identifier out_file : string).

(** What [proc.communicate()] leaves behind, already decoded. *)
Record Completed := {
  returncode : Z;
  stdout : string;
  stderr : string
}.

Inductive Effect :=
| Exec (c : Call)
| MakeDirs (path : string).

(** The screens on the application's stack: the selection screen with the
    conversations it lists, or the chat screen of a conversation. *)
Inductive ScreenRef :=
| ConversationSelectionScreen (conversations : list Conversation)
| ChatScreenOf (conv : Conversation).

(** The state outside the chat screen object: the effects performed so far
    (oldest first), how often the clock was read, the screen stack (top
    first) and whether [App.exit] was called. *)
Record World := {
  log : list Effect;
  clock_reads : nat;
  screen_stack : list ScreenRef;
  exited : bool
}.

(** The environment: the outcome of a backend call and the file system,
    both as functions of the effects so far, and the successive readings of
    the UTC clock (an instant is a number of microseconds). *)
Record Env := {
  run : list Effect -> Call -> Completed;
  path_exists : list Effect -> string -> bool;
  utcnow : nat -> Z
}.

Definition record_effect (e : Effect) (w : World) : World :=
  {| log := log w ++ [e]; clock_reads := clock_reads w;
     screen_stack := screen_stack w; exited := exited w |}.

(** [create_subprocess_exec] followed by [communicate]. *)
Definition exec (env : Env) (c : Call) (w : World) : Completed * World :=
  (run env (log w) c, record_effect (Exec c) w).

(** [datetime.datetime.now(datetime.timezone.utc)] *)
Definition now (env : Env) (w : World) : Z * World :=
  (utcnow env (clock_reads w),
   {| log := log w; clock_reads := S (clock_reads w);
      screen_stack := screen_stack w; exited := exited w |}).

(** [self.app.pop_screen()] *)
Definition pop_screen (w : World) : World :=
  {| log := log w; clock_reads := clock_reads w;
     screen_stack := tail (screen_stack w); exited := exited w |}.

(** [self.app.push_screen(ChatScreen(conv, ...))] *)
Definition push_screen (s : ScreenRef) (w : World) : World :=
  {| log := log w; clock_reads := clock_reads w;
     screen_stack := s :: screen_stack w; exited := exited w |}.

(** [self.app.exit()] *)
Definition app_exit (w : World) : World :=
  {| log := log w; clock_reads := clock_reads w;
     screen_stack := screen_stack w; exited := true |}.


(** [os.path.join(a, b)] on POSIX paths. *)
Definition ends_with_slash (a : string) : bool :=
  match String.rev a with String c _ => Ascii.eqb c "/"%char | EmptyString => false end.

Definition os_path_join (a b : string) : string :=
  if Py.startswith "/" b then b
  else if String.eqb a "" || ends_with_slash a then a +:+ b
  else a +:+ "/" +:+ b.

Definition read_previous_messages (env : Env) (conv : Conversation) (cfg : Config)
  (w : World) : string * World :=
  let spec := get_conversation_spec conv in
  let at_least := default 10%Z (read_at_least cfg) in
  let (proc, w) := exec env (ReadAtLeast at_least spec) w in
  if negb (returncode proc =? 0)%Z
  then ("Error reading previous messages: " +:+ Py.strip (stderr proc), w)
  else (stdout proc, w).

(** The outcome of the call is not looked at. *)
Definition send_message_cmd (env : Env) (conversation_id : option string)
  (message : string) (w : World) : World :=
  snd (exec env (ApiSend conversation_id message) w).

Definition attach_file_cmd (env : Env) (conv : Conversation) (file_path : string)
  (w : World) : string * World :=
  if negb (path_exists env (log w) file_path)
  then ("File '" +:+ file_path +:+ "' does not exist.", w)
  else
    let spec := get_conversation_spec conv in
    let (proc, w) := exec env (Upload spec file_path) w in
    if negb (returncode proc =? 0)%Z
    then ("Error attaching file: " +:+ Py.strip (stderr proc), w)
    else ("File attached successfully.", w).

Definition download_file_cmd (env : Env) (conv : Conversation)
  (file_identifier : string) (cfg : Config) (w : World) : string * World :=
  let spec := get_conversation_spec conv in
  let download_dir := default "." (download_path cfg) in
  let w := if negb (path_exists env (log w) download_dir)
           then record_effect (MakeDirs download_dir) w else w in
  let out_file := os_path_join download_dir file_identifier in
  let (proc, w) := exec env (Download spec file_identifier out_file) w in
  if negb (returncode proc =? 0)%Z
  then ("Error downloading file: " +:+ Py.strip (stderr proc), w)
  else ("File downloaded successfully to " +:+ out_file +:+ ".", w).

Definition newline : string := String "010" EmptyString.

Definition get_help_text : string :=
  "Commands:" +:+ newline
  +:+ "  /help                  - Show this help message." +:+ newline
  +:+ "  /cc [conversation]     - Change channel. With an argument, switches to that conversation." +:+ newline
  +:+ "  /af <file_path>        - Attach a file to the conversation." +:+ newline
  +:+ "  /df <file_identifier>  - Download a file (provide file/message ID)." +:+ newline
  +:+ "  /quit                  - Quit the application." +:+ newline.

(** ** The chat screen *)

(** [listen_task]: [None], a running task, or a task that was cancelled. *)
Inductive Task := NoTask | Scheduled | Cancelled.

(** The fields of a [ChatScreen]; [message_list] holds the text of the
    items of the list view, in display order. *)
Record ChatScreen := {
  conversation : Conversation;
  config : Config;
  current_user : string;
  listen_task : Task;
  running : bool;
  seen_ids : gset string;
  last_poll_timestamp : Z;
  message_list : list string
}.

(** [self.seen_ids.add(i)] *)
Definition seen_add (i : string) (self : ChatScreen) : ChatScreen :=
  {| conversation := conversation self; config := config self;
     current_user := current_user self; listen_task := listen_task self;
     running := running self; seen_ids := {[ i ]} ∪ seen_ids self;
     last_poll_timestamp := last_poll_timestamp self;
     message_list := message_list self |}.

(** [self.message_list.append(ListItem(Static(line, markup=False)))] *)
Definition append_line (line : string) (self : ChatScreen) : ChatScreen :=
  {| conversation := conversation self; config := config self;
     current_user := current_user self; listen_task := listen_task self;
     running := running self; seen_ids := seen_ids self;
     last_poll_timestamp := last_poll_timestamp self;
     message_list := message_list self ++ [line] |}.

Definition set_last_poll_timestamp (t : Z) (self : ChatScreen) : ChatScreen :=
  {| conversation := conversation self; config := config self;
     current_user := current_user self; listen_task := listen_task self;
     running := running self; seen_ids := seen_ids self;
     last_poll_timestamp := t;
     message_list := message_list self |}.

Definition set_listen_task (t : Task) (self : ChatScreen) : ChatScreen :=
  {| conversation := conversation self; config := config self;
     current_user := current_user self; listen_task := t;
     running := running self; seen_ids := seen_ids self;
     last_poll_timestamp := last_poll_timestamp self;
     message_list := message_list self |}.

Definition set_running (b : bool) (self : ChatScreen) : ChatScreen :=
  {| conversation := conversation self; config := config self;
     current_user := current_user self; listen_task := listen_task self;
     running := b; seen_ids := seen_ids self;
     last_poll_timestamp := last_poll_timestamp self;
     message_list := message_list self |}.

(** [ChatScreen.__init__] *)
Definition ChatScreen_init (env : Env) (conv : Conversation) (cfg : Config)
  (user : string) (w : World) : ChatScreen * World :=
  let (t, w) := now env w in
  ({| conversation := conv; config := cfg; current_user := user;
      listen_task := NoTask; running := true; seen_ids := ∅;
      last_poll_timestamp := t; message_list := [] |}, w).

(** The body of the loop of [on_mount] over the previous messages. *)
Definition mount_line (self : ChatScreen) (line : string) : ChatScreen :=
  let self :=
    match Py.re_match_id line with
    | Some i => seen_add i self
    | None => self
    end in
  append_line line self.

(** The loop of [on_mount]. *)
Definition mount_lines (self : ChatScreen) (lines : list string) : ChatScreen :=
  fold_left mount_line lines self.

(** [ChatScreen.on_mount]: the bulk load, then the polling task starts. *)
Definition on_mount (env : Env) (self : ChatScreen) (w : World)
  : ChatScreen * World :=
  let (prev, w) := read_previous_messages env (conversation self) (config self) w in
  let self := mount_lines self (Py.splitlines prev) in
  (set_listen_task Scheduled self, w).

(** The body of the loop of [poll_iteration] over the new lines. *)
Definition poll_line (self : ChatScreen) (line : string) : ChatScreen :=
  match Py.re_match_id line with
  | Some msg_id =>
      if decide (msg_id ∈ seen_ids self) then self
      else append_line line (seen_add msg_id self)
  | None => self
  end.

(** The loop of [poll_iteration]. *)
Definition poll_lines (self : ChatScreen) (new_lines : list string) : ChatScreen :=
  fold_left poll_line new_lines self.

(** [ChatScreen.poll_iteration]; logging and the scroll position are left
    out. *)
Definition poll_iteration (env : Env) (self : ChatScreen) (w : World)
  : ChatScreen * World :=
  let (proc, w) :=
    exec env (ReadSince (last_poll_timestamp self)
                        (get_conversation_spec (conversation self))) w in
  let (new_timestamp, w) := now env w in
  let self := set_last_poll_timestamp new_timestamp self in
  if negb (returncode proc =? 0)%Z then (self, w)
  else (poll_lines self (Py.splitlines (stdout proc)), w).

(** One turn of the loop of [listen_messages]: the wait, then a poll. The
    turn is taken while the task has not been cancelled. *)
Definition listen_cycle (env : Env) (self : ChatScreen) (w : World)
  : ChatScreen * World :=
  match listen_task self with
  | Scheduled => if running self then poll_iteration env self w else (self, w)
  | _ => (self, w)
  end.

(** [self.listen_task.cancel()] under [if self.listen_task]. *)
Definition cancel_listen_task (self : ChatScreen) : ChatScreen :=
  match listen_task self with
  | NoTask => self
  | _ => set_listen_task Cancelled self
  end.

(** [ChatScreen.action_pop_chat] *)
Definition action_pop_chat (self : ChatScreen) (w : World) : ChatScreen * World :=
  let self := set_running false self in
  let self := cancel_listen_task self in
  (self, pop_screen w).

(** [ChatScreen.action_quit_app] *)
Definition action_quit_app (self : ChatScreen) (w : World) : ChatScreen * World :=
  let self := set_running false self in
  let self := cancel_listen_task self in
  (self, app_exit w).

(** [parts[0].lower()] and [parts[1] if len(parts) > 1 else ""]; the input
    starts with a slash here, so [parts] has a first element. *)
Definition command_of (parts : list string) : string * string :=
  (Py.lower (hd "" parts), nth 1 parts "").

(** [ChatScreen.on_input_submitted], applied to [message.value]; the
    clearing of the input box is left out. *)
Definition on_input_submitted (env : Env) (self : ChatScreen) (value : string)
  (w : World) : ChatScreen * World :=
  let user_input := Py.strip value in
  if Py.startswith "/" user_input then
    let parts := Py.split_maxsplit1 user_input in
    let (cmd, arg) := command_of parts in
    if String.eqb cmd "/help" then
      (append_line get_help_text self, w)
    else if String.eqb cmd "/quit" then
      action_quit_app self w
    else if String.eqb cmd "/cc" then
      if negb (String.eqb arg "") then
        let self := append_line ("Switching to conversation: " +:+ arg) self in
        (self, pop_screen w)
      else (self, pop_screen w)
    else if String.eqb cmd "/af" then
      if negb (String.eqb arg "") then
        let (result, w) := attach_file_cmd env (conversation self) arg w in
        (append_line result self, w)
      else (append_line "Usage: /af <file_path>" self, w)
    else if String.eqb cmd "/df" then
      if negb (String.eqb arg "") then
        let (result, w) :=
          download_file_cmd env (conversation self) arg (config self) w in
        (append_line result self, w)
      else (append_line "Usage: /df <file_identifier>" self, w)
    else (append_line "Unknown command. Type /help for help." self, w)
  else
    let w := send_message_cmd env (conv_id (conversation self)) user_input w in
    poll_iteration env self w.

(** ** Sessions *)

(** What happens to a mounted chat screen: the scheduler takes a turn, or
    the user submits a line. *)
Inductive Action :=
| Tick
| Submit (value : string).

Definition step (env : Env) (sw : ChatScreen * World) (a : Action)
  : ChatScreen * World :=
  match a with
  | Tick => listen_cycle env (fst sw) (snd sw)
  | Submit value => on_input_submitted env (fst sw) value (snd sw)
  end.

Definition run_actions (env : Env) (sw : ChatScreen * World) (acts : list Action)
  : ChatScreen * World :=
  fold_left (step env) acts sw.

(** The values the poll cursor takes along a run, the starting one first. *)
Fixpoint cursor_history (env : Env) (sw : ChatScreen * World) (acts : list Action)
  : list Z :=
  last_poll_timestamp (fst sw) ::
  match acts with
  | [] => []
  | a :: acts' => cursor_history env (step env sw a) acts'
  end.

(** Selecting a conversation in the list pushes its chat screen, which is
    constructed and mounted. *)
Definition open_chat (env : Env) (conv : Conversation) (cfg : Config)
  (user : string) (w : World) : ChatScreen * World :=
  let (self, w) := ChatScreen_init env conv cfg user w in
  on_mount env self (push_screen (ChatScreenOf conv) w).

(** The identifiers carried by some lines, in order. *)
Definition line_ids (lines : list string) : list string :=
  omap Py.re_match_id lines.

(** The lines a poll loop adds to the display when it starts with the set
    [seen]: those with an identifier that is neither in [seen] nor carried
    by an earlier line of the batch. *)
Fixpoint fresh_lines (seen : gset string) (lines : list string) : list string :=
  match lines with
  | [] => []
  | line :: rest =>
      match Py.re_match_id line with
      | Some i =>
          if decide (i ∈ seen) then fresh_lines seen rest
          else line :: fresh_lines ({[ i ]} ∪ seen) rest
      | None => fresh_lines seen rest
      end
  end.

(** The merge as section 4.1 of the specification words it: a line whose
    identifier is in the set is discarded, any other line is appended and
    its identifier, if it has one, recorded. *)
Definition spec_merge_line (self : ChatScreen) (line : string) : ChatScreen :=
  match Py.re_match_id line with
  | Some i =>
      if decide (i ∈ seen_ids self) then self
      else append_line line (seen_add i self)
  | None => append_line line self
  end.

Definition spec_merge (self : ChatScreen) (lines : list string) : ChatScreen :=
  fold_left spec_merge_line lines self.

(** The invariant of the display: the identifiers of the displayed lines
    are pairwise distinct and all recorded in [seen_ids]. *)
Definition ids_unique (self : ChatScreen) : Prop :=
  NoDup (line_ids (message_list self))
  ∧ ∀ i, i ∈ line_ids (message_list self) → i ∈ seen_ids self.

(** The clock never runs backwards. *)
Definition clock_monotone (env : Env) : Prop :=
  ∀ i j : nat, (i ≤ j)%nat → (utcnow env i ≤ utcnow env j)%Z.

(** The call a poll makes. *)
Definition poll_call (self : ChatScreen) : Call :=
  ReadSince (last_poll_timestamp self) (get_conversation_spec (conversation self)).

(** [int(s)] for a string of ASCII digits. *)
Definition digits_value (s : string) : Z :=
  fold_left (fun acc c => (10 * acc + (Z.of_N (Py.ord c) - 48))%Z)
            (list_ascii_of_string s) 0%Z.

(** Either a step leaves cursor and clock alone, or it is a poll attempt
    and moves the cursor to the reading it takes. *)
Definition cursor_step (env : Env) (sw sw' : ChatScreen * World) : Prop :=
  (last_poll_timestamp (fst sw') = last_poll_timestamp (fst sw)
   ∧ clock_reads (snd sw') = clock_reads (snd sw))
  ∨ (last_poll_timestamp (fst sw') = utcnow env (clock_reads (snd sw))
     ∧ clock_reads (snd sw') = S (clock_reads (snd sw))).

(** [names_list] of [conversation_display_name]. *)
Definition names_list_of (conv : Conversation) : list string :=
  map Py.strip (Py.split "," (default "" (name (get_channel conv)))).

(** The chat screen is still up: nothing popped it, nothing stopped its
    polling task, and the application has not exited. *)
Definition session_continues (before after : ChatScreen * World) : Prop :=
  screen_stack (snd after) = screen_stack (snd before)
  ∧ exited (snd after) = exited (snd before)
  ∧ running (fst after) = running (fst before)
  ∧ listen_task (fst after) = listen_task (fst before).

(** ** Sample values *)

Definition conv_ab : Conversation :=
  {| conv_id := Some "0001";
     channel := Some {| members_type := Some "impteamnative";
                        name := Some "alice,bob"; topic_name := None |} |}.

Definition conv_self : Conversation :=
  {| conv_id := Some "0002";
     channel := Some {| members_type := Some "impteamnative";
                        name := Some "alice"; topic_name := None |} |}.

Definition cfg0 : Config :=
  {| read_at_least := Some 10%Z; download_path := Some "./downloads" |}.

Definition completed_ok (out : string) : Completed :=
  {| returncode := 0; stdout := out; stderr := "" |}.

Definition completed_error (err : string) : Completed :=
  {| returncode := 1; stdout := ""; stderr := err |}.

(** A mounted chat screen with nothing displayed yet. *)
Definition screen0 : ChatScreen :=
  {| conversation := conv_ab; config := cfg0; current_user := "alice";
     listen_task := Scheduled; running := true; seen_ids := ∅;
     last_poll_timestamp := 1000; message_list := [] |}.

Definition conv_ac : Conversation :=
  {| conv_id := Some "0003";
     channel := Some {| members_type := Some "impteamnative";
                        name := Some "alice,carol"; topic_name := None |} |}.

(** The chat with [alice,bob] is open above the list of conversations. *)
Definition world0 : World :=
  {| log := []; clock_reads := 1;
     screen_stack :=
       [ChatScreenOf conv_ab; ConversationSelectionScreen [conv_ab; conv_ac]];
     exited := false |}.

(** Every read prints the single line [Connected.]; no path exists. *)
Definition env_connected : Env :=
  {| run := fun _ _ => completed_ok ("Connected." +:+ newline);
     path_exists := fun _ _ => false;
     utcnow := fun n => (1000 + Z.of_nat n)%Z |}.

(** Every backend call fails; every path exists. *)
Definition env_down : Env :=
  {| run := fun _ _ => completed_error ("  network unreachable" +:+ newline);
     path_exists := fun _ _ => true;
     utcnow := fun n => (1000 + Z.of_nat n)%Z |}.

(** Sending fails, reading succeeds and prints nothing. *)
Definition env_send_fails : Env :=
  {| run := fun _ c =>
       match c with
       | ApiSend _ _ => completed_error "not logged in"
       | _ => completed_ok ""
       end;
     path_exists := fun _ _ => true;
     utcnow := fun n => (1000 + Z.of_nat n)%Z |}.

(** ** The conversation selection screen *)

(** A conversation of the list with its [active_at] key. *)
Record Listed := {
  summary : Conversation;
  active_at : option Z
}.

(** The whole configuration: the keys of the chat screen and those of the
    selection screen. *)
Record AppConfig := {
  chat_keys : Config;
  max_recent : option Z;
  hide_names : option (list string)
}.

(** [c.get("active_at", 0)] *)
Definition active_key (c : Listed) : Z := default 0%Z (active_at c).

(** [sorted(l, key=active_key, reverse=True)]: Python's sort is stable,
    also in reverse, so a conversation goes before the first one that is
    not more recent than it. *)
Fixpoint insert_desc (c : Listed) (l : list Listed) : list Listed :=
  match l with
  | [] => [c]
  | d :: l' =>
      if (active_key c <? active_key d)%Z then d :: insert_desc c l'
      else c :: l
  end.

Definition sorted_desc (l : list Listed) : list Listed :=
  foldr insert_desc [] l.

(** [str(conv.get("id"))] *)
Definition str_of_id (i : option string) : string := default "None" i.

(** [any(h.lower() in name.lower() for h in hide_names)] *)
Definition hidden (hide : list string) (display : string) : bool :=
  existsb (fun h => Py.contains (Py.lower h) (Py.lower display)) hide.

(** [self.conversations] as [ConversationSelectionScreen.on_mount] leaves
    it, from the result of [list_conversations]. *)
Definition listed_conversations (cfg : AppConfig) (convs : list Listed)
  : list Listed :=
  if (0 <? default 0 (max_recent cfg))%Z
  then take (Z.to_nat (default 0%Z (max_recent cfg))) (sorted_desc convs)
  else sorted_desc convs.

(** The items of the list view: the identifier and the text of each. *)
Fixpoint list_items (hide : list string) (user : string) (convs : list Listed)
  : list (string * string) :=
  match convs with
  | [] => []
  | conv :: rest =>
      let display := conversation_display_name (summary conv) user in
      if hidden hide display then list_items hide user rest
      else ("conv_" +:+ str_of_id (conv_id (summary conv)), display)
           :: list_items hide user rest
  end.

Definition selection_items (cfg : AppConfig) (user : string) (convs : list Listed)
  : list (string * string) :=
  list_items (default [] (hide_names cfg)) user (listed_conversations cfg convs).

(** Truth value of a conversation dictionary: it has a key. *)
Definition dict_truthy (c : Listed) : bool :=
  match conv_id (summary c), channel (summary c), active_at c with
  | None, None, None => false
  | _, _, _ => true
  end.

(** [next((c for c in conversations if str(c.get("id")) == conv_id), None)] *)
Definition find_conversation (convs : list Listed) (cid : string) : option Listed :=
  List.find (fun c => String.eqb (str_of_id (conv_id (summary c))) cid) convs.

(** [ConversationSelectionScreen.on_list_view_selected], applied to
    [message.item.id]; [convs] is [self.conversations]. *)
Definition on_list_view_selected (env : Env) (cfg : AppConfig) (user : string)
  (convs : list Listed) (item_id : string) (w : World)
  : option ChatScreen * World :=
  let cid := Py.replace "conv_" "" item_id in
  match find_conversation convs cid with
  | Some conv =>
      if dict_truthy conv then
        let (screen, w) := open_chat env (summary conv) (chat_keys cfg) user w in
        (Some screen, w)
      else (None, w)
  | None => (None, w)
  end.

(** [get_current_user], from the completed [keybase whoami]. *)
Definition get_current_user (proc : Completed) : option string :=
  if negb (returncode proc =? 0)%Z then None
  else Some (Py.strip (stdout proc)).

(** Every character of a string satisfies a test. *)
Fixpoint all_chars (p : ascii -> bool) (s : string) : bool :=
  match s with
  | EmptyString => true
  | String c s' => p c && all_chars p s'
  end.

(** A backend call that reads or sends messages. *)
Definition is_chat_traffic (e : Effect) : bool :=
  match e with
  | Exec (ReadAtLeast _ _) | Exec (ReadSince _ _) | Exec (ApiSend _ _) => true
  | _ => false
  end.

(** [n] turns of the scheduler. *)
Definition ticks (n : nat) : list Action := replicate n Tick.

(** A conversation between two people, listed. *)
Definition listed_at (i : string) (names : string) (t : Z) : Listed :=
  {| summary :=
       {| conv_id := Some i;
          channel := Some {| members_type := Some "impteamnative";
                             name := Some names; topic_name := None |} |};
     active_at := Some t |}.

Definition cfg_recent2 : AppConfig :=
  {| chat_keys := cfg0; max_recent := Some 2%Z; hide_names := Some ["Bot"] |}.

(** ** Properties of the string primitives *)

Example splitlines_ex :
  Py.splitlines ("[1] hi" +:+ String "010" ("[2] there" +:+ String "013" (String "010" "x")))
  = ["[1] hi"; "[2] there"; "x"].
Proof. reflexivity. Qed.

Example split_maxsplit1_ex :
  Py.split_maxsplit1 "/AF  my file.txt" = ["/AF"; "my file.txt"].
Proof. reflexivity. Qed.

Example strip_ex : Py.strip "  hello world  " = "hello world".
Proof. reflexivity. Qed.

Example re_match_id_ex :
  Py.re_match_id "[07] bob: hi" = Some "07" ∧ Py.re_match_id "[x7]" = None
  ∧ Py.re_match_id "[]" = None ∧ Py.re_match_id " [7]" = None
  ∧ Py.re_match_id "[12" = None.
Proof. repeat split; reflexivity. Qed.

Lemma lstrip_head (s : string) :
  Py.lstrip s = "" ∨ ∃ c t, Py.lstrip s = String c t ∧ Py.isspace c = false.
Proof.
  induction s as [|c s IH]; simpl; [by left|].
  destruct (Py.isspace c) eqn:E; [exact IH|right; eauto].
Qed.

Lemma rstrip_head (c : ascii) (s : string) :
  Py.isspace c = false → ∃ t, Py.rstrip (String c s) = String c t.
Proof.
  intros E. simpl. destruct (Py.rstrip s); rewrite ?E; eauto.
Qed.

Lemma strip_head (s : string) :
  Py.strip s = "" ∨ ∃ c t, Py.strip s = String c t ∧ Py.isspace c = false.
Proof.
  unfold Py.strip. destruct (lstrip_head s) as [->|(c & t & -> & E)]; [by left|].
  right. destruct (rstrip_head c t E) as [t' ->]. eauto.
Qed.

Lemma lstrip_strip (s : string) : Py.lstrip (Py.strip s) = Py.strip s.
Proof.
  destruct (strip_head s) as [->|(c & t & -> & E)]; [done|].
  simpl. by rewrite E.
Qed.

Lemma span_word_head (c : ascii) (s : string) :
  Py.isspace c = false → ∃ t, fst (Py.span_word (String c s)) = String c t.
Proof.
  intros E. simpl. rewrite E. destruct (Py.span_word s); simpl; eauto.
Qed.

(** The first part of a split input starts like the input: [parts[0]]
    exists whenever the stripped input is not empty. *)
Lemma split_strip_head (value : string) (c : ascii) (t : string) :
  Py.strip value = String c t →
  ∃ t' tl, Py.split_maxsplit1 (Py.strip value) = String c t' :: tl.
Proof.
  intros E. unfold Py.split_maxsplit1. rewrite lstrip_strip, E.
  destruct (strip_head value) as [E'|(c' & t0 & E' & Hc)]; [congruence|].
  assert (c' = c) as -> by congruence.
  destruct (span_word_head c t Hc) as [t' Ht'].
  destruct (Py.span_word (String c t)) as [w r]; simpl in Ht'; subst w.
  destruct (Py.lstrip r); eauto.
Qed.

Lemma lower_char_slash (c : ascii) : Py.lower_char c = "/"%char → c = "/"%char.
Proof.
  destruct c as [[] [] [] [] [] [] [] []]; vm_compute; intros H;
    first [reflexivity | discriminate H].
Qed.

Lemma lower_slash_head (s t : string) :
  Py.lower s = String "/" t → Py.startswith "/" s = true.
Proof.
  destruct s as [|c s]; simpl; [discriminate|].
  intros H. injection H as Hc _. apply lower_char_slash in Hc. by subst c.
Qed.

(** The command word of an input decides that the input starts with a
    slash. *)
Lemma command_startswith_slash (value cmd_tail arg : string) :
  command_of (Py.split_maxsplit1 (Py.strip value)) = (String "/" cmd_tail, arg) →
  Py.startswith "/" (Py.strip value) = true.
Proof.
  intros H. destruct (strip_head value) as [E|(c & t & E & Hc)].
  - rewrite E in H. vm_compute in H. discriminate.
  - destruct (split_strip_head value c t E) as (t' & tl & Hs).
    rewrite Hs in H. unfold command_of in H. simpl in H.
    injection H as H _. rewrite E.
    apply lower_char_slash in H. subst c. reflexivity.
Qed.

(** ** The two merge loops *)

Section Merge.

Implicit Types (self : ChatScreen) (line : string) (lines : list string)
  (seen : gset string).

Lemma line_ids_cons line lines :
  line_ids (line :: lines) =
  match Py.re_match_id line with
  | Some i => i :: line_ids lines
  | None => line_ids lines
  end.
Proof. reflexivity. Qed.


Lemma mount_lines_cons self line lines :
  mount_lines self (line :: lines) = mount_lines (mount_line self line) lines.
Proof. reflexivity. Qed.

Lemma poll_lines_cons self line lines :
  poll_lines self (line :: lines) = poll_lines (poll_line self line) lines.
Proof. reflexivity. Qed.

(** The bulk load displays every line it is given. *)
Lemma mount_lines_message_list self lines :
  message_list (mount_lines self lines) = message_list self ++ lines.
Proof.
  revert self. induction lines as [|line lines IH]; intros self.
  - by rewrite app_nil_r.
  - rewrite mount_lines_cons, IH. unfold mount_line.
    destruct (Py.re_match_id line); simpl; by rewrite <- app_assoc.
Qed.

Lemma mount_lines_seen_ids self lines :
  seen_ids (mount_lines self lines)
  = list_to_set (line_ids lines) ∪ seen_ids self.
Proof.
  revert self. induction lines as [|line lines IH]; intros self.
  - simpl. set_solver.
  - rewrite mount_lines_cons, IH, line_ids_cons. unfold mount_line.
    destruct (Py.re_match_id line); simpl; set_solver.
Qed.

Lemma poll_lines_seen_ids self lines :
  seen_ids (poll_lines self lines)
  = list_to_set (line_ids lines) ∪ seen_ids self.
Proof.
  revert self. induction lines as [|line lines IH]; intros self.
  - simpl. set_solver.
  - rewrite poll_lines_cons, IH, line_ids_cons. unfold poll_line.
    destruct (Py.re_match_id line); [case_decide|]; simpl; set_solver.
Qed.

(** A poll displays the fresh lines of its batch, and only them. *)
Lemma poll_lines_message_list self lines :
  message_list (poll_lines self lines)
  = message_list self ++ fresh_lines (seen_ids self) lines.
Proof.
  revert self. induction lines as [|line lines IH]; intros self.
  - by rewrite app_nil_r.
  - rewrite poll_lines_cons, IH. unfold poll_line. simpl.
    destruct (Py.re_match_id line); [case_decide|]; simpl;
      by rewrite <- ?app_assoc.
Qed.

Lemma spec_merge_seen_ids self lines :
  seen_ids (spec_merge self lines)
  = list_to_set (line_ids lines) ∪ seen_ids self.
Proof.
  revert self. induction lines as [|line lines IH]; intros self.
  - simpl. set_solver.
  - change (spec_merge self (line :: lines))
      with (spec_merge (spec_merge_line self line) lines).
    rewrite IH, line_ids_cons. unfold spec_merge_line.
    destruct (Py.re_match_id line); [case_decide|]; simpl; set_solver.
Qed.

Lemma fresh_lines_sublist seen lines : sublist (fresh_lines seen lines) lines.
Proof.
  revert seen. induction lines as [|line lines IH]; intros seen; simpl.
  - constructor.
  - destruct (Py.re_match_id line); [case_decide|];
      by first [apply sublist_skip | apply sublist_cons].
Qed.

Lemma fresh_lines_identified seen lines :
  Forall (λ line, Py.re_match_id line ≠ None) (fresh_lines seen lines).
Proof.
  revert seen. induction lines as [|line lines IH]; intros seen; simpl.
  - constructor.
  - destruct (Py.re_match_id line) eqn:E; [case_decide|]; auto.
    constructor; [congruence|auto].
Qed.

(** The identifiers of the fresh lines are new and pairwise distinct. *)
Lemma fresh_lines_ids seen lines :
  NoDup (line_ids (fresh_lines seen lines))
  ∧ ∀ i, i ∈ line_ids (fresh_lines seen lines) →
         (i ∉ seen) ∧ (i ∈ line_ids lines).
Proof.
  revert seen. induction lines as [|line lines IH]; intros seen.
  - split; [constructor|]. intros i Hi. inversion Hi.
  - cbn [fresh_lines]. rewrite (line_ids_cons line lines).
    destruct (Py.re_match_id line) as [j|] eqn:E.
    + case_decide as Hj.
      * destruct (IH seen) as [Hnd Hin]. split; [done|].
        intros i Hi. destruct (Hin i Hi). split; [done|]. by right.
      * destruct (IH ({[ j ]} ∪ seen)) as [Hnd Hin].
        rewrite line_ids_cons, E. split.
        -- constructor; [|done]. intros Hj'. apply Hin in Hj'. set_solver.
        -- intros i [->|Hi]%elem_of_cons; [split; [done|by left]|].
           destruct (Hin i Hi). split; [set_solver|by right].
    + apply IH.
Qed.

(** Once the identifiers of a batch are recorded, the batch has no fresh
    line left. *)
Lemma fresh_lines_seen seen lines :
  (∀ i, i ∈ line_ids lines → i ∈ seen) → fresh_lines seen lines = [].
Proof.
  induction lines as [|line lines IH]; intros Hs; simpl; [done|].
  rewrite line_ids_cons in Hs. destruct (Py.re_match_id line) as [j|].
  - rewrite decide_True by (apply Hs; by left).
    apply IH. intros i Hi. apply Hs. by right.
  - by apply IH.
Qed.

Lemma fresh_lines_length seen lines :
  length (fresh_lines seen lines) ≤ length lines.
Proof. apply sublist_length, fresh_lines_sublist. Qed.

(** When a poll displays its whole batch. *)
Lemma fresh_lines_all seen lines :
  fresh_lines seen lines = lines ↔
  Forall (λ line, Py.re_match_id line ≠ None) lines
  ∧ NoDup (line_ids lines)
  ∧ ∀ i, i ∈ line_ids lines → i ∉ seen.
Proof.
  split.
  - intros H. split; [rewrite <- H; apply fresh_lines_identified|].
    destruct (fresh_lines_ids seen lines) as [Hnd Hin].
    rewrite H in Hnd, Hin. split; [done|]. intros i Hi. by apply Hin.
  - revert seen. induction lines as [|line lines IH];
      intros seen (Hid & Hnd & Hs); simpl; [done|].
    rewrite line_ids_cons in Hnd, Hs.
    destruct (Py.re_match_id line) as [j|] eqn:E.
    + apply NoDup_cons in Hnd as [Hj Hnd].
      rewrite decide_False by (apply Hs; by left).
      f_equal. apply IH. split; [by inversion Hid|]. split; [done|].
      intros i Hi. assert (i ∉ seen) by (apply Hs; by right).
      assert (i ≠ j) by (intros ->; done). set_solver.
    + inversion Hid; congruence.
Qed.



Lemma ChatScreen_init_ids_unique env conv cfg user w :
  ids_unique (fst (ChatScreen_init env conv cfg user w)).
Proof.
  split; simpl; [constructor|]. intros i Hi. by apply elem_of_nil in Hi.
Qed.


End Merge.

(** ** What the bulk load and a poll do to the display *)

Section Display.

Implicit Types (self : ChatScreen) (line : string) (lines : list string).

Lemma poll_lines_noop self lines :
  (∀ i, i ∈ line_ids lines → i ∈ seen_ids self) → poll_lines self lines = self.
Proof.
  induction lines as [|line lines IH]; intros Hs; [done|].
  rewrite line_ids_cons in Hs. rewrite poll_lines_cons.
  assert (poll_line self line = self) as ->.
  { unfold poll_line. destruct (Py.re_match_id line); [|done].
    rewrite decide_True; [done|]. apply Hs. by left. }
  apply IH. intros i Hi. apply Hs. destruct (Py.re_match_id line); [by right|done].
Qed.

Lemma on_mount_eq env self w :
  on_mount env self w =
  (set_listen_task Scheduled
     (mount_lines self
        (Py.splitlines
           (fst (read_previous_messages env (conversation self) (config self) w)))),
   snd (read_previous_messages env (conversation self) (config self) w)).
Proof.
  unfold on_mount.
  by destruct (read_previous_messages env (conversation self) (config self) w).
Qed.

Lemma poll_iteration_eq env self w :
  poll_iteration env self w =
  let proc := run env (log w) (poll_call self) in
  let self1 := set_last_poll_timestamp (utcnow env (clock_reads w)) self in
  (if negb (returncode proc =? 0)%Z then self1
   else poll_lines self1 (Py.splitlines (stdout proc)),
   snd (now env (record_effect (Exec (poll_call self)) w))).
Proof.
  unfold poll_iteration, exec, now, poll_call. simpl.
  by destruct (negb _).
Qed.

(** The lines a poll adds to the display all carry an identifier. *)
Lemma poll_iteration_message_list env self w :
  ∃ added,
    message_list (fst (poll_iteration env self w)) = message_list self ++ added
    ∧ Forall (λ line, Py.re_match_id line ≠ None) added.
Proof.
  rewrite poll_iteration_eq. simpl. destruct (negb _); simpl.
  - exists []. by rewrite app_nil_r.
  - rewrite poll_lines_message_list. eexists. split; [done|].
    apply fresh_lines_identified.
Qed.

End Display.

(** C1, as amended: the bulk load of [on_mount] appends every line it
    reads, so also every line without an identifier, whatever [seen_ids]
    holds; a poll never appends a line without an identifier: what it adds
    to the display are lines that carry one. *)
Theorem C1_unidentified_lines (env : Env) (self : ChatScreen) (w : World) :
  (∀ lines, message_list (mount_lines self lines) = message_list self ++ lines)
  ∧ message_list (fst (on_mount env self w))
    = message_list self
      ++ Py.splitlines
           (fst (read_previous_messages env (conversation self) (config self) w))
  ∧ (∀ lines line, line ∈ lines → Py.re_match_id line = None →
       line ∈ message_list (mount_lines self lines))
  ∧ (∀ lines, ∃ added,
       message_list (poll_lines self lines) = message_list self ++ added
       ∧ Forall (λ line, Py.re_match_id line ≠ None) added)
  ∧ (∃ added,
       message_list (fst (poll_iteration env self w)) = message_list self ++ added
       ∧ Forall (λ line, Py.re_match_id line ≠ None) added).
Proof.
  split; [apply mount_lines_message_list|].
  split; [rewrite on_mount_eq; simpl; apply mount_lines_message_list|].
  split.
  { intros lines line Hin _. rewrite mount_lines_message_list.
    apply elem_of_app. by right. }
  split; [|apply poll_iteration_message_list].
  intros lines. rewrite poll_lines_message_list. eexists. split; [done|].
  apply fresh_lines_identified.
Qed.

(** C1, the claim as stated fails on a poll batch: the line [Connected.]
    carries no identifier, is fetched by a poll on a mounted screen, and is
    not displayed. *)
Lemma C1_poll_drops_unidentified_line :
  Py.re_match_id "Connected." = None
  ∧ Py.splitlines (stdout (run env_connected (log world0) (poll_call screen0)))
    = ["Connected."]
  ∧ message_list (fst (poll_iteration env_connected screen0 world0)) = []
  ∧ ¬ ("Connected." ∈ message_list (fst (poll_iteration env_connected screen0 world0))).
Proof.
  assert (message_list (fst (poll_iteration env_connected screen0 world0)) = [])
    as E by reflexivity.
  repeat split; try reflexivity. rewrite E. apply not_elem_of_nil.
Qed.

(** C2, as amended: on every input and every starting set the bulk load
    and a poll record the same identifiers, but they do not display the
    same lines.  The bulk load displays the whole input; a poll displays a
    sublist of it, and the whole of it exactly when every line carries an
    identifier, these identifiers are pairwise distinct and none of them
    was recorded before. *)
Theorem C2_bulk_load_and_poll (self : ChatScreen) (lines : list string) :
  seen_ids (mount_lines self lines) = seen_ids (poll_lines self lines)
  ∧ message_list (mount_lines self lines) = message_list self ++ lines
  ∧ (∃ added, message_list (poll_lines self lines) = message_list self ++ added
              ∧ sublist added lines)
  ∧ (message_list (poll_lines self lines) = message_list (mount_lines self lines)
     ↔ Forall (λ line, Py.re_match_id line ≠ None) lines
       ∧ NoDup (line_ids lines)
       ∧ ∀ i, i ∈ line_ids lines → i ∉ seen_ids self).
Proof.
  split; [by rewrite mount_lines_seen_ids, poll_lines_seen_ids|].
  split; [apply mount_lines_message_list|].
  split.
  { rewrite poll_lines_message_list. eexists. split; [done|].
    apply fresh_lines_sublist. }
  rewrite poll_lines_message_list, mount_lines_message_list.
  rewrite <- fresh_lines_all. split; [apply app_inv_head|by intros ->].
Qed.

(** C2, the claim as stated fails: on the same input and the same (empty)
    set the two loops display different lines, both for a line without an
    identifier and for a repeated identifier. *)
Lemma C2_paths_display_differently :
  message_list (mount_lines screen0 ["Connected."]) = ["Connected."]
  ∧ message_list (poll_lines screen0 ["Connected."]) = []
  ∧ message_list (mount_lines screen0 ["[1] hi"; "[1] hi"]) = ["[1] hi"; "[1] hi"]
  ∧ message_list (poll_lines screen0 ["[1] hi"; "[1] hi"]) = ["[1] hi"]
  ∧ message_list (mount_lines screen0 ["Connected."])
    ≠ message_list (poll_lines screen0 ["Connected."]).
Proof. repeat split; try reflexivity. discriminate. Qed.



(** C9: identifiers are compared as the digit strings inside the brackets.
    Two lines whose identifiers differ as strings, neither recorded yet,
    are both displayed by a poll (and by the bulk load), also when the two
    strings denote the same number, as [07] and [7] do. *)
Theorem C9_identifiers_compared_as_text (self : ChatScreen)
  (l1 l2 i1 i2 : string) :
  Py.re_match_id l1 = Some i1 → Py.re_match_id l2 = Some i2 → i1 ≠ i2 →
  i1 ∉ seen_ids self → i2 ∉ seen_ids self →
  message_list (poll_lines self [l1; l2]) = message_list self ++ [l1; l2]
  ∧ message_list (mount_lines self [l1; l2]) = message_list self ++ [l1; l2]
  ∧ seen_ids (poll_lines self [l1; l2]) = {[ i1 ]} ∪ ({[ i2 ]} ∪ seen_ids self).
Proof.
  intros E1 E2 Hne H1 H2.
  split; [|split; [apply mount_lines_message_list|]].
  - rewrite poll_lines_message_list. f_equal. apply fresh_lines_all.
    unfold line_ids. simpl. rewrite E1, E2. simpl.
    split; [repeat constructor; congruence|].
    split; [repeat constructor; set_solver|]. set_solver.
  - rewrite poll_lines_seen_ids. unfold line_ids. simpl. rewrite E1, E2. simpl.
    set_solver.
Qed.

Lemma C9_identifiers_compared_as_text_witness :
  digits_value "07" = digits_value "7"
  ∧ message_list (poll_lines screen0 ["[07] bob: a"; "[7] bob: b"])
    = ["[07] bob: a"; "[7] bob: b"].
Proof.
  split; [reflexivity|].
  refine (proj1 (C9_identifiers_compared_as_text screen0
                   "[07] bob: a" "[7] bob: b" "07" "7" _ _ _ _ _));
    first [reflexivity | discriminate | apply not_elem_of_empty].
Defined.

(** ** The poll cursor along a session *)

Section Cursor.

Variable env : Env.

Implicit Types (self : ChatScreen) (w : World) (sw : ChatScreen * World).

Lemma poll_lines_last_poll_timestamp self (lines : list string) :
  last_poll_timestamp (poll_lines self lines) = last_poll_timestamp self.
Proof.
  revert self. induction lines as [|line lines IH]; intros self; [done|].
  rewrite poll_lines_cons, IH. unfold poll_line.
  destruct (Py.re_match_id line); [case_decide|]; done.
Qed.

Lemma mount_lines_last_poll_timestamp self (lines : list string) :
  last_poll_timestamp (mount_lines self lines) = last_poll_timestamp self.
Proof.
  revert self. induction lines as [|line lines IH]; intros self; [done|].
  rewrite mount_lines_cons, IH. unfold mount_line.
  by destruct (Py.re_match_id line).
Qed.

(** A poll attempt leaves the clock reading it took in the cursor,
    whatever the backend answered. *)
Lemma poll_iteration_cursor self w :
  last_poll_timestamp (fst (poll_iteration env self w)) = utcnow env (clock_reads w)
  ∧ clock_reads (snd (poll_iteration env self w)) = S (clock_reads w).
Proof.
  rewrite poll_iteration_eq. simpl. split; [|done].
  destruct (negb _); [done|]. by rewrite poll_lines_last_poll_timestamp.
Qed.

Lemma attach_file_cmd_clock (conv : Conversation) (file_path : string) w :
  clock_reads (snd (attach_file_cmd env conv file_path w)) = clock_reads w.
Proof.
  unfold attach_file_cmd, exec.
  destruct (negb (path_exists _ _ _)); [done|]. by destruct (negb _).
Qed.

Lemma download_file_cmd_clock (conv : Conversation) (fid : string)
  (cfg : Config) w :
  clock_reads (snd (download_file_cmd env conv fid cfg w)) = clock_reads w.
Proof.
  unfold download_file_cmd, exec.
  destruct (negb (path_exists _ _ _)); by destruct (negb (_ =? _)%Z).
Qed.

Lemma listen_cycle_cursor self w :
  cursor_step env (self, w) (listen_cycle env self w).
Proof.
  unfold listen_cycle.
  destruct (listen_task self); try (by left).
  destruct (running self); [|by left].
  right. apply poll_iteration_cursor.
Qed.

Lemma on_input_submitted_cursor self (value : string) w :
  cursor_step env (self, w) (on_input_submitted env self value w).
Proof.
  unfold on_input_submitted.
  destruct (Py.startswith "/" (Py.strip value)).
  - destruct (command_of _) as [cmd arg].
    destruct (String.eqb cmd "/help"); [by left|].
    destruct (String.eqb cmd "/quit").
    { left. unfold action_quit_app, cancel_listen_task. simpl.
      by destruct (listen_task self). }
    destruct (String.eqb cmd "/cc"); [by destruct (negb _); left|].
    destruct (String.eqb cmd "/af").
    { destruct (negb _); [|by left].
      pose proof (attach_file_cmd_clock (conversation self) arg w) as H.
      destruct (attach_file_cmd _ _ _ _). by left. }
    destruct (String.eqb cmd "/df"); [|by left].
    destruct (negb _); [|by left].
    pose proof (download_file_cmd_clock (conversation self) arg (config self) w) as H.
    destruct (download_file_cmd _ _ _ _ _). by left.
  - right.
    apply (poll_iteration_cursor self
             (send_message_cmd env (conv_id (conversation self))
                               (Py.strip value) w)).
Qed.

Lemma step_cursor sw (a : Action) : cursor_step env sw (step env sw a).
Proof.
  destruct sw as [self w], a; simpl;
    [apply listen_cycle_cursor | apply on_input_submitted_cursor].
Qed.

Lemma open_chat_cursor (conv : Conversation) (cfg : Config) (user : string) w :
  last_poll_timestamp (fst (open_chat env conv cfg user w))
  = utcnow env (clock_reads w)
  ∧ clock_reads (snd (open_chat env conv cfg user w)) = S (clock_reads w).
Proof.
  unfold open_chat, ChatScreen_init, now. rewrite on_mount_eq. simpl.
  rewrite mount_lines_last_poll_timestamp. split; [done|].
  unfold read_previous_messages, exec. simpl. by destruct (negb _).
Qed.

Hypothesis clock_ok : clock_monotone env.

Lemma cursor_history_head sw (acts : list Action) :
  ∃ rest, cursor_history env sw acts = last_poll_timestamp (fst sw) :: rest.
Proof. destruct acts; simpl; eauto. Qed.

Lemma cursor_history_sorted (acts : list Action) sw :
  (last_poll_timestamp (fst sw) ≤ utcnow env (clock_reads (snd sw)))%Z →
  Sorted Z.le (cursor_history env sw acts).
Proof.
  revert sw. induction acts as [|a acts IH]; intros sw Hsw; simpl.
  - repeat constructor.
  - assert ((last_poll_timestamp (fst sw)
              ≤ last_poll_timestamp (fst (step env sw a)))%Z
            ∧ (last_poll_timestamp (fst (step env sw a))
               ≤ utcnow env (clock_reads (snd (step env sw a))))%Z) as [H1 H2].
    { destruct (step_cursor sw a) as [[-> ->]|[-> ->]]; split;
        try done; try lia.
      apply clock_ok. lia. }
    constructor; [by apply IH|].
    destruct (cursor_history_head (step env sw a) acts) as [rest ->].
    by constructor.
Qed.

End Cursor.

(** C4: a poll attempt sets the cursor to the clock reading taken when the
    fetch has completed, whether the backend call succeeded or failed; and
    while the clock does not run backwards, the values the cursor takes
    along any run of scheduler turns and submitted inputs of a chat session
    never decrease. *)
Theorem C4_poll_cursor (env : Env) :
  clock_monotone env →
  (∀ self w,
     last_poll_timestamp (fst (poll_iteration env self w))
     = utcnow env (clock_reads w))
  ∧ (∀ conv cfg user w acts,
       StronglySorted Z.le
         (cursor_history env (open_chat env conv cfg user w) acts)).
Proof.
  intros Hclock. split; [intros; apply poll_iteration_cursor|].
  intros conv cfg user w acts.
  apply Sorted_StronglySorted; [intros x y z; apply Z.le_trans|].
  apply cursor_history_sorted; [done|].
  destruct (open_chat_cursor env conv cfg user w) as [-> ->].
  apply Hclock. lia.
Qed.

Lemma C4_poll_cursor_witness :
  clock_monotone env_down
  ∧ returncode (run env_down [] (poll_call screen0)) ≠ 0%Z
  ∧ last_poll_timestamp (fst (poll_iteration env_down screen0 world0)) = 1001%Z
  ∧ cursor_history env_down (open_chat env_down conv_ab cfg0 "alice" world0)
      [Tick; Submit "/help"; Submit "hi"; Tick]
    = [1001; 1002; 1002; 1003; 1004]%Z.
Proof.
  assert (clock_monotone env_down) as H.
  { intros i j Hij. simpl. lia. }
  split; [exact H|]. split; [discriminate|].
  split; [exact (proj1 (C4_poll_cursor env_down H) screen0 world0)|].
  reflexivity.
Defined.

(** ** The command interpreter *)

Section Commands.

Variable env : Env.

Implicit Types (self : ChatScreen) (w : World) (value arg : string).

Lemma eqb_nonempty arg : arg ≠ "" → negb (String.eqb arg "") = true.
Proof. intros H. by apply negb_true_iff, String.eqb_neq. Qed.

Lemma on_input_submitted_plain self value w :
  Py.startswith "/" (Py.strip value) = false →
  on_input_submitted env self value w
  = poll_iteration env self
      (record_effect
         (Exec (ApiSend (conv_id (conversation self)) (Py.strip value))) w).
Proof. intros H. unfold on_input_submitted. by rewrite H. Qed.

Lemma on_input_submitted_cc self value arg w :
  command_of (Py.split_maxsplit1 (Py.strip value)) = ("/cc", arg) →
  arg ≠ "" →
  on_input_submitted env self value w
  = (append_line ("Switching to conversation: " +:+ arg) self, pop_screen w).
Proof.
  intros Hc Ha. unfold on_input_submitted.
  rewrite (command_startswith_slash _ _ _ Hc), Hc. cbn [String.eqb Ascii.eqb Bool.eqb].
  by rewrite (eqb_nonempty _ Ha).
Qed.

Lemma on_input_submitted_af self value arg w :
  command_of (Py.split_maxsplit1 (Py.strip value)) = ("/af", arg) →
  on_input_submitted env self value w
  = if negb (String.eqb arg "") then
      (append_line (fst (attach_file_cmd env (conversation self) arg w)) self,
       snd (attach_file_cmd env (conversation self) arg w))
    else (append_line "Usage: /af <file_path>" self, w).
Proof.
  intros Hc. unfold on_input_submitted.
  rewrite (command_startswith_slash _ _ _ Hc), Hc. cbn [String.eqb Ascii.eqb Bool.eqb].
  destruct (negb _); [|done]. by destruct (attach_file_cmd _ _ _ _).
Qed.

Lemma on_input_submitted_df self value arg w :
  command_of (Py.split_maxsplit1 (Py.strip value)) = ("/df", arg) →
  on_input_submitted env self value w
  = if negb (String.eqb arg "") then
      (append_line
         (fst (download_file_cmd env (conversation self) arg (config self) w)) self,
       snd (download_file_cmd env (conversation self) arg (config self) w))
    else (append_line "Usage: /df <file_identifier>" self, w).
Proof.
  intros Hc. unfold on_input_submitted.
  rewrite (command_startswith_slash _ _ _ Hc), Hc. cbn [String.eqb Ascii.eqb Bool.eqb].
  destruct (negb _); [|done]. by destruct (download_file_cmd _ _ _ _ _).
Qed.

Lemma attach_file_cmd_error (conv : Conversation) arg w :
  path_exists env (log w) arg = true →
  returncode (run env (log w) (Upload (get_conversation_spec conv) arg)) ≠ 0%Z →
  attach_file_cmd env conv arg w
  = ("Error attaching file: "
       +:+ Py.strip (stderr (run env (log w) (Upload (get_conversation_spec conv) arg))),
     record_effect (Exec (Upload (get_conversation_spec conv) arg)) w).
Proof.
  intros He Hr. unfold attach_file_cmd, exec. rewrite He. simpl.
  apply Z.eqb_neq in Hr. by rewrite Hr.
Qed.

End Commands.

(** C5, as amended: when the submitted input, stripped of leading and
    trailing white space, does not begin with a slash, the stripped text is
    what is passed to the send operation, and the handler then runs exactly
    one poll cycle, the very [poll_iteration] of the scheduled cycle: the
    send and the poll's read are the two backend calls it makes. *)
Theorem C5_plain_input_sent_then_polled (env : Env) (self : ChatScreen)
  (value : string) (w : World) :
  Py.startswith "/" (Py.strip value) = false →
  on_input_submitted env self value w
  = poll_iteration env self
      (record_effect
         (Exec (ApiSend (conv_id (conversation self)) (Py.strip value))) w)
  ∧ log (snd (on_input_submitted env self value w))
    = log w ++ [Exec (ApiSend (conv_id (conversation self)) (Py.strip value));
                Exec (poll_call self)].
Proof.
  intros H. rewrite (on_input_submitted_plain env self value w H).
  split; [done|]. rewrite poll_iteration_eq. simpl. by rewrite <- app_assoc.
Qed.

Lemma C5_plain_input_sent_then_polled_witness :
  Py.startswith "/" (Py.strip "  see you at 5  ") = false
  ∧ log (snd (on_input_submitted env_connected screen0 "  see you at 5  " world0))
    = [Exec (ApiSend (Some "0001") "see you at 5");
       Exec (ReadSince 1000 "alice,bob")].
Proof.
  split; [reflexivity|].
  exact (proj2 (C5_plain_input_sent_then_polled env_connected screen0
                  "  see you at 5  " world0 eq_refl)).
Defined.

(** C5, the claim as stated fails: an input with white space around it
    does not begin with a slash, yet the text sent is not the input but the
    stripped input; and an input with white space before a slash does not
    begin with a slash either, yet nothing is sent at all. *)
Lemma C5_input_not_sent_verbatim :
  Py.startswith "/" " hi " = false
  ∧ log (snd (on_input_submitted env_connected screen0 " hi " world0))
    = [Exec (ApiSend (Some "0001") "hi"); Exec (ReadSince 1000 "alice,bob")]
  ∧ "hi" ≠ " hi "
  ∧ Py.startswith "/" " /help" = false
  ∧ log (snd (on_input_submitted env_connected screen0 " /help" world0)) = [].
Proof. repeat split; try reflexivity. discriminate. Qed.

(** C6, as amended: when the backend call of an attach or of a download
    fails (non-zero exit status), the chat view gets one more line, made of
    a fixed prefix and the stripped error output of the call, and the
    session continues: the screen stays up with its polling task, and the
    application has not exited. *)
Theorem C6_attach_download_failure (env : Env) (self : ChatScreen) (w : World) :
  (∀ value arg,
     command_of (Py.split_maxsplit1 (Py.strip value)) = ("/af", arg) →
     arg ≠ "" →
     path_exists env (log w) arg = true →
     let proc :=
       run env (log w) (Upload (get_conversation_spec (conversation self)) arg) in
     returncode proc ≠ 0%Z →
     message_list (fst (on_input_submitted env self value w))
     = message_list self ++ ["Error attaching file: " +:+ Py.strip (stderr proc)]
     ∧ session_continues (self, w) (on_input_submitted env self value w))
  ∧ (∀ value arg,
       command_of (Py.split_maxsplit1 (Py.strip value)) = ("/df", arg) →
       arg ≠ "" →
       let download_dir := default "." (download_path (config self)) in
       let w1 := if negb (path_exists env (log w) download_dir)
                 then record_effect (MakeDirs download_dir) w else w in
       let proc :=
         run env (log w1)
           (Download (get_conversation_spec (conversation self)) arg
                     (os_path_join download_dir arg)) in
       returncode proc ≠ 0%Z →
       message_list (fst (on_input_submitted env self value w))
       = message_list self ++ ["Error downloading file: " +:+ Py.strip (stderr proc)]
       ∧ session_continues (self, w) (on_input_submitted env self value w)).
Proof.
  split.
  - intros value arg Hc Ha He proc Hr.
    rewrite (on_input_submitted_af env self value arg w Hc).
    rewrite (eqb_nonempty arg Ha).
    rewrite (attach_file_cmd_error env (conversation self) arg w He Hr).
    done.
  - intros value arg Hc Ha download_dir w1 proc Hr.
    rewrite (on_input_submitted_df env self value arg w Hc).
    rewrite (eqb_nonempty arg Ha).
    unfold download_file_cmd, exec. fold download_dir. fold w1. fold proc.
    apply Z.eqb_neq in Hr. rewrite Hr. simpl.
    split; [done|]. unfold session_continues. simpl. subst w1.
    by destruct (negb _).
Qed.

Lemma C6_attach_download_failure_witness :
  message_list (fst (on_input_submitted env_down screen0 "/af report.pdf" world0))
  = ["Error attaching file: network unreachable"]
  ∧ message_list (fst (on_input_submitted env_down screen0 "/df 42" world0))
    = ["Error downloading file: network unreachable"]
  ∧ session_continues (screen0, world0)
      (on_input_submitted env_down screen0 "/af report.pdf" world0).
Proof.
  assert ("report.pdf" ≠ "") as Ha by discriminate.
  assert ("42" ≠ "") as Hd by discriminate.
  assert (1 ≠ 0)%Z as Hr by discriminate.
  pose proof (proj1 (C6_attach_download_failure env_down screen0 world0)
                "/af report.pdf" "report.pdf" eq_refl Ha eq_refl Hr) as [H1 H2].
  pose proof (proj2 (C6_attach_download_failure env_down screen0 world0)
                "/df 42" "42" eq_refl Hd Hr) as [H3 _].
  split; [exact H1|]. split; [exact H3|exact H2].
Defined.

(** C6, the claim as stated fails for a send: the backend call of the send
    fails, and no line is added to the chat view. *)
Lemma C6_send_failure_not_surfaced :
  returncode (run env_send_fails (log world0) (ApiSend (Some "0001") "hello"))
  ≠ 0%Z
  ∧ log (snd (on_input_submitted env_send_fails screen0 "hello" world0))
    = [Exec (ApiSend (Some "0001") "hello"); Exec (ReadSince 1000 "alice,bob")]
  ∧ message_list (fst (on_input_submitted env_send_fails screen0 "hello" world0))
    = message_list screen0.
Proof. repeat split; try reflexivity. discriminate. Qed.

(** C7, what the code does at [/cc alice,carol], typed in the chat with
    [alice,bob] while the conversation [alice,carol] is in the list: the
    notice is displayed and the screen is popped, which leaves the list on
    top; no chat screen is pushed for the target, although selecting it
    would push one; and, unlike [action_pop_chat], the handler neither
    clears [running] nor cancels the polling task, so that the scheduler's
    next turn still reads from the backend. *)
Theorem C7_cc_pops_without_entering_target :
  on_input_submitted env_connected screen0 "/cc alice,carol" world0
  = (append_line "Switching to conversation: alice,carol" screen0,
     pop_screen world0)
  ∧ screen_stack (snd (on_input_submitted env_connected screen0 "/cc alice,carol" world0))
    = [ConversationSelectionScreen [conv_ab; conv_ac]]
  ∧ screen_stack
      (snd (open_chat env_connected conv_ac cfg0 "alice" (pop_screen world0)))
    = [ChatScreenOf conv_ac; ConversationSelectionScreen [conv_ab; conv_ac]]
  ∧ running (fst (on_input_submitted env_connected screen0 "/cc alice,carol" world0))
    = true
  ∧ listen_task (fst (on_input_submitted env_connected screen0 "/cc alice,carol" world0))
    = Scheduled
  ∧ running (fst (action_pop_chat screen0 world0)) = false
  ∧ listen_task (fst (action_pop_chat screen0 world0)) = Cancelled
  ∧ log (snd (step env_connected
                (on_input_submitted env_connected screen0 "/cc alice,carol" world0)
                Tick))
    = [Exec (ReadSince 1000 "alice,bob")]
  ∧ log (snd (step env_connected (action_pop_chat screen0 world0) Tick)) = [].
Proof. repeat split; reflexivity. Qed.



(** ** Display names *)

Section DisplayName.

Lemma split_from_nonempty (sep : ascii) (cur s : string) :
  Py.split_from sep cur s ≠ [].
Proof.
  revert cur. induction s as [|c s IH]; intros cur; simpl; [done|].
  destruct (Ascii.eqb c sep); [done|apply IH].
Qed.

Lemma names_list_of_nonempty (conv : Conversation) : names_list_of conv ≠ [].
Proof.
  unfold names_list_of, Py.split.
  pose proof (split_from_nonempty "," "" (default "" (name (get_channel conv)))).
  by destruct (Py.split_from _ _ _).
Qed.

Lemma filter_nil_all (user : string) (l : list string) :
  List.filter (fun n => negb (String.eqb n user)) l = [] →
  Forall (λ n, n = user) l.
Proof.
  induction l as [|n l IH]; simpl; [constructor|].
  destruct (String.eqb n user) eqn:E; simpl; [|discriminate].
  intros H. constructor; [by apply String.eqb_eq|by apply IH].
Qed.

Lemma join_nonempty (sep x : string) (l : list string) :
  x ≠ "" → Py.join sep (x :: l) ≠ "".
Proof.
  intros Hx. unfold Py.join. simpl. destruct x as [|c x]; [done|].
  by destruct l.
Qed.

End DisplayName.

(** C10: for a conversation that is not a team conversation, when every
    name of the channel name is the current user's, so that filtering
    leaves no name, the display name is the join of the unfiltered list of
    names; that list is never empty, and the display name is not the empty
    string as long as the user's name is not. *)
Theorem C10_display_name_falls_back (conv : Conversation) (user : string) :
  is_team (get_channel conv) = false →
  List.filter (fun n => negb (String.eqb n user)) (names_list_of conv) = [] →
  conversation_display_name conv user = Py.join "," (names_list_of conv)
  ∧ names_list_of conv ≠ []
  ∧ (user ≠ "" → conversation_display_name conv user ≠ "").
Proof.
  intros Ht Hf.
  assert (conversation_display_name conv user = Py.join "," (names_list_of conv))
    as E.
  { unfold conversation_display_name. rewrite Ht.
    fold (names_list_of conv). by rewrite Hf. }
  split; [exact E|]. split; [apply names_list_of_nonempty|].
  intros Hu. rewrite E.
  pose proof (names_list_of_nonempty conv) as Hne.
  pose proof (filter_nil_all user _ Hf) as Hall.
  destruct (names_list_of conv) as [|n l]; [done|].
  apply join_nonempty. inversion Hall; by subst.
Qed.

Lemma C10_display_name_falls_back_witness :
  List.filter (fun n => negb (String.eqb n "alice")) (names_list_of conv_self) = []
  ∧ conversation_display_name conv_self "alice" = "alice".
Proof.
  split; [reflexivity|].
  exact (proj1 (C10_display_name_falls_back conv_self "alice" eq_refl eq_refl)).
Defined.

Example conversation_display_name_ex :
  conversation_display_name conv_ab "alice" = "bob"
  ∧ conversation_display_name conv_ab "dave" = "alice,bob".
Proof. split; reflexivity. Qed.

(** ** The invariant along a session *)

Section Session.

Variable env : Env.

Implicit Types (self : ChatScreen) (w : World).







End Session.

Lemma C1_unidentified_lines_witness :
  "Connected." ∈ message_list (mount_lines screen0 ["[1] hi"; "Connected."])
  ∧ message_list (mount_lines screen0 ["[1] hi"; "Connected."])
    = ["[1] hi"; "Connected."].
Proof.
  pose proof (C1_unidentified_lines env_connected screen0 world0)
    as (H1 & _ & H3 & _).
  split; [|exact (H1 ["[1] hi"; "Connected."])].
  apply (H3 ["[1] hi"; "Connected."] "Connected."); [|reflexivity].
  rewrite !elem_of_cons. auto.
Defined.

Lemma C2_bulk_load_and_poll_witness :
  seen_ids (mount_lines screen0 ["[1] hi"; "Connected."; "[1] hi"])
  = seen_ids (poll_lines screen0 ["[1] hi"; "Connected."; "[1] hi"])
  ∧ message_list (poll_lines screen0 ["[1] hi"; "Connected."; "[1] hi"])
    = ["[1] hi"].
Proof.
  split; [|reflexivity].
  exact (proj1 (C2_bulk_load_and_poll screen0 ["[1] hi"; "Connected."; "[1] hi"])).
Defined.

(** ** The line format *)

Section LineFormat.

Implicit Types (s d r line i : string).

Lemma append_cons (c : ascii) s r : String c s +:+ r = String c (s +:+ r).
Proof. reflexivity. Qed.

Lemma append_nil s : "" +:+ s = s.
Proof. reflexivity. Qed.




End LineFormat.


(** ** The shapes of a handled input *)

Section Handler.

Variable env : Env.

Implicit Types (self : ChatScreen) (w : World) (value arg line : string).

(** The lines the handler writes by itself. *)
Lemma on_input_submitted_cases self value w :
  (Py.startswith "/" (Py.strip value) = true
   ∧ ((∃ line, Py.re_match_id line = None
               ∧ on_input_submitted env self value w = (append_line line self, w))
      ∨ on_input_submitted env self value w = action_quit_app self w
      ∨ on_input_submitted env self value w = (self, pop_screen w)
      ∨ (∃ line, Py.re_match_id line = None
                 ∧ on_input_submitted env self value w
                   = (append_line line self, pop_screen w))
      ∨ (∃ arg, on_input_submitted env self value w
                = (append_line (fst (attach_file_cmd env (conversation self) arg w)) self,
                   snd (attach_file_cmd env (conversation self) arg w)))
      ∨ (∃ arg, on_input_submitted env self value w
                = (append_line
                     (fst (download_file_cmd env (conversation self) arg (config self) w))
                     self,
                   snd (download_file_cmd env (conversation self) arg (config self) w)))))
  ∨ (Py.startswith "/" (Py.strip value) = false
     ∧ on_input_submitted env self value w
       = poll_iteration env self
           (send_message_cmd env (conv_id (conversation self)) (Py.strip value) w)).
Proof.
  unfold on_input_submitted.
  destruct (Py.startswith "/" (Py.strip value)); [left; split; [done|]|by right].
  destruct (command_of _) as [cmd arg].
  destruct (String.eqb cmd "/help"); [left; by exists get_help_text|].
  destruct (String.eqb cmd "/quit"); [by right; left|].
  destruct (String.eqb cmd "/cc").
  { destruct (negb _); [|by right; right; left].
    right; right; right; left.
    by exists ("Switching to conversation: " +:+ arg). }
  destruct (String.eqb cmd "/af").
  { destruct (negb _); [|left; by exists "Usage: /af <file_path>"].
    right; right; right; right; left. exists arg.
    by destruct (attach_file_cmd _ _ _ _). }
  destruct (String.eqb cmd "/df");
    [|left; by exists "Unknown command. Type /help for help."].
  destruct (negb _); [|left; by exists "Usage: /df <file_identifier>"].
  right; right; right; right; right. exists arg.
  by destruct (download_file_cmd _ _ _ _ _).
Qed.

Lemma attach_file_cmd_log (conv : Conversation) arg w :
  log (snd (attach_file_cmd env conv arg w))
  = log w ++ (if path_exists env (log w) arg
              then [Exec (Upload (get_conversation_spec conv) arg)] else []).
Proof.
  unfold attach_file_cmd, exec.
  destruct (path_exists _ _ _); simpl; [|by rewrite app_nil_r].
  by destruct (negb _).
Qed.

Lemma download_file_cmd_log (conv : Conversation) arg (cfg : Config) w :
  log (snd (download_file_cmd env conv arg cfg w))
  = log w
    ++ (if path_exists env (log w) (default "." (download_path cfg)) then []
        else [MakeDirs (default "." (download_path cfg))])
    ++ [Exec (Download (get_conversation_spec conv) arg
                (os_path_join (default "." (download_path cfg)) arg))].
Proof.
  unfold download_file_cmd, exec.
  destruct (path_exists _ _ _); simpl; destruct (negb _); simpl;
    by rewrite <- ?app_assoc.
Qed.

Lemma attach_file_cmd_world (conv : Conversation) arg w :
  screen_stack (snd (attach_file_cmd env conv arg w)) = screen_stack w
  ∧ exited (snd (attach_file_cmd env conv arg w)) = exited w.
Proof.
  unfold attach_file_cmd, exec.
  destruct (negb (path_exists _ _ _)); [done|]. by destruct (negb _).
Qed.

Lemma download_file_cmd_world (conv : Conversation) arg (cfg : Config) w :
  screen_stack (snd (download_file_cmd env conv arg cfg w)) = screen_stack w
  ∧ exited (snd (download_file_cmd env conv arg cfg w)) = exited w.
Proof.
  unfold download_file_cmd, exec.
  destruct (negb (path_exists _ _ _)); by destruct (negb (_ =? _)%Z).
Qed.

Lemma poll_lines_grows self (lines : list string) :
  message_list self `prefix_of` message_list (poll_lines self lines)
  ∧ seen_ids self ⊆ seen_ids (poll_lines self lines).
Proof.
  rewrite poll_lines_message_list, poll_lines_seen_ids.
  split; [by eexists|set_solver].
Qed.

Lemma poll_iteration_grows self w :
  message_list self `prefix_of` message_list (fst (poll_iteration env self w))
  ∧ seen_ids self ⊆ seen_ids (fst (poll_iteration env self w)).
Proof.
  rewrite poll_iteration_eq. simpl. destruct (negb _); simpl; [done|].
  apply (poll_lines_grows
           (set_last_poll_timestamp (utcnow env (clock_reads w)) self)).
Qed.

Lemma step_grows (sw : ChatScreen * World) (a : Action) :
  message_list (fst sw) `prefix_of` message_list (fst (step env sw a))
  ∧ seen_ids (fst sw) ⊆ seen_ids (fst (step env sw a)).
Proof.
  destruct sw as [self w], a as [|value]; simpl.
  - unfold listen_cycle. destruct (listen_task self); try done.
    destruct (running self); [apply poll_iteration_grows|done].
  - destruct (on_input_submitted_cases self value w)
      as [[_ [(line & _ & ->)|[->|[->|[(line & _ & ->)|[[arg ->]|[arg ->]]]]]]]
         |[_ ->]];
      simpl; try (split; [by eexists|done]); try done.
    + unfold cancel_listen_task. simpl. by destruct (listen_task self).
    + apply poll_iteration_grows.
Qed.

End Handler.

(** X2: along any run of scheduler turns and submitted inputs the display
    is only ever extended at its end, and no identifier leaves [seen_ids]. *)
Theorem X2_display_append_only (env : Env) (acts : list Action)
  (sw : ChatScreen * World) :
  message_list (fst sw) `prefix_of` message_list (fst (run_actions env sw acts))
  ∧ seen_ids (fst sw) ⊆ seen_ids (fst (run_actions env sw acts)).
Proof.
  revert sw. induction acts as [|a acts IH]; intros sw; [done|].
  destruct (step_grows env sw a) as [H1 H2].
  destruct (IH (step env sw a)) as [H3 H4].
  split; [by etrans|]. unfold run_actions in *. simpl. set_solver.
Qed.

(** ** Sessions: what is displayed, and when polling stops *)

Section SessionFacts.

Variable env : Env.

Implicit Types (self : ChatScreen) (w : World) (value arg : string).


Lemma poll_lines_conversation self (lines : list string) :
  conversation (poll_lines self lines) = conversation self
  ∧ running (poll_lines self lines) = running self
  ∧ listen_task (poll_lines self lines) = listen_task self.
Proof.
  revert self. induction lines as [|line lines IH]; intros self; [done|].
  rewrite poll_lines_cons. destruct (IH (poll_line self line)) as (-> & -> & ->).
  unfold poll_line. destruct (Py.re_match_id line); [case_decide|]; done.
Qed.

Lemma poll_iteration_screen self w :
  conversation (fst (poll_iteration env self w)) = conversation self
  ∧ running (fst (poll_iteration env self w)) = running self
  ∧ listen_task (fst (poll_iteration env self w)) = listen_task self.
Proof.
  rewrite poll_iteration_eq. simpl. destruct (negb _); [done|].
  apply (poll_lines_conversation
           (set_last_poll_timestamp (utcnow env (clock_reads w)) self)).
Qed.

Lemma poll_iteration_world self w :
  log (snd (poll_iteration env self w)) = log w ++ [Exec (poll_call self)]
  ∧ screen_stack (snd (poll_iteration env self w)) = screen_stack w
  ∧ exited (snd (poll_iteration env self w)) = exited w.
Proof. by rewrite poll_iteration_eq. Qed.

Lemma stopped_screen_ticks (n : nat) self w :
  running self = false →
  run_actions env (self, w) (ticks n) = (self, w).
Proof.
  intros Hr. induction n as [|n IH]; [done|].
  unfold ticks, run_actions in *. simpl. unfold listen_cycle. rewrite Hr.
  destruct (listen_task self); exact IH.
Qed.

Lemma all_space_lstrip (s : string) :
  all_chars Py.isspace s = true → Py.lstrip s = "".
Proof.
  induction s as [|c s IH]; simpl; [done|].
  intros [Hc Hs]%andb_true_iff. rewrite Hc. by apply IH.
Qed.

End SessionFacts.



(** X4: what a poll adds after the bulk load never carries an identifier of
    a bulk-loaded line; and a poll batch all of whose identifiers were in
    the bulk load leaves the screen exactly as the bulk load left it. *)
Theorem X4_bulk_loaded_not_shown_again (self : ChatScreen)
  (lines batch : list string) :
  (∃ added,
     message_list (poll_lines (mount_lines self lines) batch)
     = message_list self ++ lines ++ added
     ∧ ∀ i, i ∈ line_ids added → i ∉ line_ids lines)
  ∧ ((∀ i, i ∈ line_ids batch → i ∈ line_ids lines) →
     poll_lines (mount_lines self lines) batch = mount_lines self lines).
Proof.
  split.
  - rewrite poll_lines_message_list, mount_lines_message_list, mount_lines_seen_ids.
    rewrite <- app_assoc. eexists. split; [done|].
    intros i Hi Hi'.
    apply fresh_lines_ids in Hi as [Hn _]. apply Hn.
    by apply elem_of_union_l, elem_of_list_to_set.
  - intros H. apply poll_lines_noop. intros i Hi.
    rewrite mount_lines_seen_ids. by apply elem_of_union_l, elem_of_list_to_set, H.
Qed.

Lemma X4_bulk_loaded_not_shown_again_witness :
  poll_lines (mount_lines screen0 ["[1] hi"; "[2] there"]) ["[2] there"; "[1] hi"]
  = mount_lines screen0 ["[1] hi"; "[2] there"].
Proof.
  apply (proj2 (X4_bulk_loaded_not_shown_again screen0
                  ["[1] hi"; "[2] there"] ["[2] there"; "[1] hi"])).
  intros i Hi. change (i ∈ ["2"; "1"]) in Hi. change (i ∈ ["1"; "2"]).
  revert Hi. rewrite !elem_of_cons. tauto.
Defined.

(** X5: a poll whose backend call fails changes nothing of the screen but
    the cursor: display, [seen_ids], [running] and the polling task are as
    before, the screen stack too, and the read is the one call made. *)
Theorem X5_failed_poll_changes_only_cursor (env : Env) (self : ChatScreen)
  (w : World) :
  returncode (run env (log w) (poll_call self)) ≠ 0%Z →
  fst (poll_iteration env self w)
  = set_last_poll_timestamp (utcnow env (clock_reads w)) self
  ∧ log (snd (poll_iteration env self w)) = log w ++ [Exec (poll_call self)]
  ∧ session_continues (self, w) (poll_iteration env self w).
Proof.
  intros Hr. rewrite poll_iteration_eq. simpl.
  apply Z.eqb_neq in Hr. rewrite Hr. done.
Qed.

Lemma X5_failed_poll_changes_only_cursor_witness :
  message_list (fst (poll_iteration env_down screen0 world0)) = []
  ∧ seen_ids (fst (poll_iteration env_down screen0 world0)) = ∅
  ∧ last_poll_timestamp (fst (poll_iteration env_down screen0 world0)) = 1001%Z.
Proof.
  assert (returncode (run env_down (log world0) (poll_call screen0)) ≠ 0%Z)
    as Hr by discriminate.
  pose proof (proj1 (X5_failed_poll_changes_only_cursor env_down screen0 world0 Hr))
    as ->.
  repeat split.
Defined.

(** X6: once the chat is left by [action_pop_chat] or the application quit
    by [action_quit_app], the scheduler does nothing more: any number of
    its turns leaves the screen and the world unchanged, so no further
    backend call is made. The same holds after a submitted [/quit]. *)
Theorem X6_no_poll_after_teardown (env : Env) (self : ChatScreen) (w : World)
  (n : nat) :
  run_actions env (action_pop_chat self w) (ticks n) = action_pop_chat self w
  ∧ run_actions env (action_quit_app self w) (ticks n) = action_quit_app self w
  ∧ (∀ value arg,
       command_of (Py.split_maxsplit1 (Py.strip value)) = ("/quit", arg) →
       on_input_submitted env self value w = action_quit_app self w
       ∧ run_actions env (on_input_submitted env self value w) (ticks n)
         = on_input_submitted env self value w).
Proof.
  assert (∀ k, run_actions env (action_quit_app self w) (ticks k)
               = action_quit_app self w) as Hq.
  { intros k. unfold action_quit_app. apply stopped_screen_ticks.
    unfold cancel_listen_task. simpl. by destruct (listen_task self). }
  split; [|split; [apply Hq|]].
  - unfold action_pop_chat. apply stopped_screen_ticks.
    unfold cancel_listen_task. simpl. by destruct (listen_task self).
  - intros value arg Hc.
    assert (on_input_submitted env self value w = action_quit_app self w) as ->.
    { unfold on_input_submitted.
      by rewrite (command_startswith_slash _ _ _ Hc), Hc. }
    split; [done|apply Hq].
Qed.

Lemma X6_no_poll_after_teardown_witness :
  log (snd (run_actions env_connected
              (on_input_submitted env_connected screen0 "/QUIT now" world0)
              (ticks 3))) = []
  ∧ exited (snd (on_input_submitted env_connected screen0 "/QUIT now" world0))
    = true.
Proof.
  pose proof (proj2 (proj2 (X6_no_poll_after_teardown env_connected screen0 world0 3))
                "/QUIT now" "now" eq_refl) as [H1 H2].
  rewrite H2, H1. split; reflexivity.
Defined.

(** X7: a poll asks for the messages since the cursor, and the next poll
    for those since the clock reading the first one took, whatever the
    first one fetched: the two backend calls of two polls in a row. *)
Theorem X7_poll_windows_follow_on (env : Env) (self : ChatScreen) (w : World) :
  log (snd (poll_iteration env (fst (poll_iteration env self w))
                               (snd (poll_iteration env self w))))
  = log w
    ++ [Exec (ReadSince (last_poll_timestamp self)
                        (get_conversation_spec (conversation self)));
        Exec (ReadSince (utcnow env (clock_reads w))
                        (get_conversation_spec (conversation self)))].
Proof.
  destruct (poll_iteration_world env (fst (poll_iteration env self w))
              (snd (poll_iteration env self w))) as [-> _].
  destruct (poll_iteration_world env self w) as [-> _].
  unfold poll_call.
  destruct (poll_iteration_cursor env self w) as [-> _].
  destruct (poll_iteration_screen env self w) as [-> _].
  by rewrite <- app_assoc.
Qed.

(** X8: an input that, stripped, begins with a slash never reads or sends
    chat messages: the effects it adds contain no read and no send, and it
    leaves [seen_ids] and the cursor as they were. *)
Theorem X8_commands_make_no_chat_traffic (env : Env) (self : ChatScreen)
  (value : string) (w : World) :
  Py.startswith "/" (Py.strip value) = true →
  (∃ added,
     log (snd (on_input_submitted env self value w)) = log w ++ added
     ∧ Forall (λ e, is_chat_traffic e = false) added)
  ∧ seen_ids (fst (on_input_submitted env self value w)) = seen_ids self
  ∧ last_poll_timestamp (fst (on_input_submitted env self value w))
    = last_poll_timestamp self.
Proof.
  intros Hs.
  destruct (on_input_submitted_cases env self value w)
    as [[_ [(line & _ & ->)|[->|[->|[(line & _ & ->)|[[arg ->]|[arg ->]]]]]]]
       |[Hn _]]; [..|congruence]; simpl.
  - split; [|done]. exists []. by rewrite app_nil_r.
  - unfold cancel_listen_task. simpl.
    split; [|by destruct (listen_task self)]. exists []. by rewrite app_nil_r.
  - split; [|done]. exists []. by rewrite app_nil_r.
  - split; [|done]. exists []. by rewrite app_nil_r.
  - split; [|done]. rewrite attach_file_cmd_log. eexists. split; [done|].
    destruct (path_exists _ _ _); repeat constructor.
  - split; [|done]. rewrite download_file_cmd_log. eexists. split; [done|].
    destruct (path_exists _ _ _); repeat constructor.
Qed.

Lemma X8_commands_make_no_chat_traffic_witness :
  log (snd (on_input_submitted env_down screen0 "/df 42" world0))
  = [Exec (Download "alice,bob" "42" "./downloads/42")]
  ∧ seen_ids (fst (on_input_submitted env_down screen0 "/df 42" world0)) = ∅.
Proof.
  split; [reflexivity|].
  exact (proj1 (proj2 (X8_commands_make_no_chat_traffic env_down screen0 "/df 42"
                         world0 eq_refl))).
Defined.

(** X9: only [/quit] and [/cc] leave the chat: after any other input, a
    plain message or any other command, known or unknown, successful or
    not, the screen is still on the stack, its polling task and [running]
    are as before, and the application has not exited. *)
Theorem X9_other_inputs_keep_session (env : Env) (self : ChatScreen)
  (value : string) (w : World) :
  Py.startswith "/" (Py.strip value) = false
  ∨ (fst (command_of (Py.split_maxsplit1 (Py.strip value))) ≠ "/quit"
     ∧ fst (command_of (Py.split_maxsplit1 (Py.strip value))) ≠ "/cc") →
  session_continues (self, w) (on_input_submitted env self value w).
Proof.
  intros H. unfold on_input_submitted, session_continues.
  destruct (Py.startswith "/" (Py.strip value)) eqn:Hs.
  - destruct H as [|[Hq Hc]]; [discriminate|].
    destruct (command_of _) as [cmd arg]. simpl in Hq, Hc.
    destruct (String.eqb cmd "/help"); [done|].
    destruct (String.eqb cmd "/quit") eqn:Eq;
      [by apply String.eqb_eq in Eq|].
    destruct (String.eqb cmd "/cc") eqn:Ec;
      [by apply String.eqb_eq in Ec|].
    destruct (String.eqb cmd "/af").
    { destruct (negb _); [|done].
      pose proof (attach_file_cmd_world env (conversation self) arg w) as [H1 H2].
      destruct (attach_file_cmd _ _ _ _). done. }
    destruct (String.eqb cmd "/df"); [|done].
    destruct (negb _); [|done].
    pose proof (download_file_cmd_world env (conversation self) arg (config self) w)
      as [H1 H2].
    destruct (download_file_cmd _ _ _ _ _). done.
  - simpl.
    destruct (poll_iteration_world env self
                (send_message_cmd env (conv_id (conversation self))
                                  (Py.strip value) w)) as (_ & -> & ->).
    destruct (poll_iteration_screen env self
                (send_message_cmd env (conv_id (conversation self))
                                  (Py.strip value) w)) as (_ & -> & ->).
    done.
Qed.

Lemma X9_other_inputs_keep_session_witness :
  session_continues (screen0, world0)
    (on_input_submitted env_down screen0 "/nosuchcommand x" world0)
  ∧ session_continues (screen0, world0)
      (on_input_submitted env_down screen0 "good morning" world0).
Proof.
  split.
  - apply (X9_other_inputs_keep_session env_down screen0 "/nosuchcommand x" world0).
    right. split; discriminate.
  - apply (X9_other_inputs_keep_session env_down screen0 "good morning" world0).
    by left.
Defined.



(** X11: when the argument of [/df] begins with a slash, the output file
    passed to the backend is the argument itself, an absolute path, and not
    a path under [download_path]. *)
Theorem X11_download_absolute_identifier (env : Env) (self : ChatScreen)
  (value arg : string) (w : World) :
  command_of (Py.split_maxsplit1 (Py.strip value)) = ("/df", arg) →
  Py.startswith "/" arg = true →
  ∃ before,
    log (snd (on_input_submitted env self value w))
    = before ++ [Exec (Download (get_conversation_spec (conversation self)) arg arg)].
Proof.
  intros Hc Hs.
  assert (arg ≠ "") as Ha by (intros ->; discriminate).
  rewrite (on_input_submitted_df env self value arg w Hc).
  rewrite (eqb_nonempty arg Ha). simpl.
  rewrite download_file_cmd_log. unfold os_path_join. rewrite Hs.
  rewrite app_assoc. by eexists.
Qed.

Lemma X11_download_absolute_identifier_witness :
  log (snd (on_input_submitted env_down screen0 "/df /etc/motd" world0))
  = [Exec (Download "alice,bob" "/etc/motd" "/etc/motd")].
Proof.
  destruct (X11_download_absolute_identifier env_down screen0 "/df /etc/motd"
              "/etc/motd" world0 eq_refl eq_refl) as [before H].
  reflexivity.
Defined.

(** X12: an [/af] command whose argument names an existing path makes the
    one upload call for that path and this conversation, and when the call
    succeeds displays that the file was attached. *)
Theorem X12_attach_success (env : Env) (self : ChatScreen) (value arg : string)
  (w : World) :
  command_of (Py.split_maxsplit1 (Py.strip value)) = ("/af", arg) →
  arg ≠ "" →
  path_exists env (log w) arg = true →
  returncode (run env (log w)
                (Upload (get_conversation_spec (conversation self)) arg)) = 0%Z →
  on_input_submitted env self value w
  = (append_line "File attached successfully." self,
     record_effect (Exec (Upload (get_conversation_spec (conversation self)) arg)) w).
Proof.
  intros Hc Ha He Hr.
  rewrite (on_input_submitted_af env self value arg w Hc).
  rewrite (eqb_nonempty arg Ha). unfold attach_file_cmd, exec.
  rewrite He, Hr. reflexivity.
Qed.

Lemma X12_attach_success_witness :
  message_list (fst (on_input_submitted env_send_fails screen0 "/af  notes.txt" world0))
  = ["File attached successfully."]
  ∧ log (snd (on_input_submitted env_send_fails screen0 "/af  notes.txt" world0))
    = [Exec (Upload "alice,bob" "notes.txt")].
Proof.
  assert ("notes.txt" ≠ "") as Ha by discriminate.
  rewrite (X12_attach_success env_send_fails screen0 "/af  notes.txt" "notes.txt"
             world0 eq_refl Ha eq_refl eq_refl).
  split; reflexivity.
Defined.

(** X13: an input made of white space only, the empty input included, is
    not ignored: an empty message is sent, and a poll follows. *)
Theorem X13_blank_input_sends_empty_message (env : Env) (self : ChatScreen)
  (value : string) (w : World) :
  all_chars Py.isspace value = true →
  log (snd (on_input_submitted env self value w))
  = log w ++ [Exec (ApiSend (conv_id (conversation self)) "");
              Exec (poll_call self)].
Proof.
  intros Hv.
  assert (Py.strip value = "") as E.
  { unfold Py.strip. by rewrite (all_space_lstrip value Hv). }
  rewrite (on_input_submitted_plain env self value w); [|by rewrite E].
  rewrite E. destruct (poll_iteration_world env self
    (record_effect (Exec (ApiSend (conv_id (conversation self)) "")) w)) as [-> _].
  simpl. by rewrite <- app_assoc.
Qed.

Lemma X13_blank_input_sends_empty_message_witness :
  log (snd (on_input_submitted env_connected screen0 "   " world0))
  = [Exec (ApiSend (Some "0001") ""); Exec (ReadSince 1000 "alice,bob")].
Proof.
  exact (X13_blank_input_sends_empty_message env_connected screen0 "   " world0
           eq_refl).
Defined.

(** ** Splitting and joining names *)

Section Names.

Implicit Types (s cur x : string) (sep : ascii) (l : list string).

Lemma append_nil_r s : s +:+ "" = s.
Proof. induction s as [|c s IH]; [done|]. rewrite append_cons. by f_equal. Qed.

Lemma append_assoc s1 s2 s3 : (s1 +:+ s2) +:+ s3 = s1 +:+ (s2 +:+ s3).
Proof.
  induction s1 as [|c s1 IH]; [done|]. rewrite !append_cons. by f_equal.
Qed.

Lemma concat_cons2 (sp x y : string) l :
  String.concat sp (x :: y :: l) = x +:+ sp +:+ String.concat sp (y :: l).
Proof. reflexivity. Qed.

Lemma join_split_from sep cur s :
  Py.join (String sep "") (Py.split_from sep cur s) = cur +:+ s.
Proof.
  revert cur. induction s as [|c s IH]; intros cur; simpl.
  - by rewrite append_nil_r.
  - destruct (Ascii.eqb c sep) eqn:E.
    + apply Ascii.eqb_eq in E. subst c.
      pose proof (split_from_nonempty sep "" s) as Hne.
      specialize (IH ""). unfold Py.join in *.
      destruct (Py.split_from sep "" s) as [|y l]; [done|].
      rewrite concat_cons2, IH. reflexivity.
    + rewrite IH, append_assoc. reflexivity.
Qed.

Lemma all_chars_app (p : ascii → bool) s1 s2 :
  all_chars p (s1 +:+ s2) = all_chars p s1 && all_chars p s2.
Proof.
  induction s1 as [|c s1 IH]; [done|].
  rewrite append_cons. simpl. rewrite IH. by rewrite andb_assoc.
Qed.

Lemma all_chars_lstrip (p : ascii → bool) s :
  all_chars p s = true → all_chars p (Py.lstrip s) = true.
Proof.
  induction s as [|c s IH]; simpl; [done|].
  intros H. destruct (Py.isspace c); [|done].
  apply andb_true_iff in H as [_ H]. by apply IH.
Qed.

Lemma all_chars_rstrip (p : ascii → bool) s :
  all_chars p s = true → all_chars p (Py.rstrip s) = true.
Proof.
  induction s as [|c s IH]; simpl; [done|].
  intros [Hc Hs]%andb_true_iff. specialize (IH Hs).
  destruct (Py.rstrip s); [destruct (Py.isspace c)|]; simpl in *;
    by rewrite ?Hc.
Qed.

Lemma all_chars_strip (p : ascii → bool) s :
  all_chars p s = true → all_chars p (Py.strip s) = true.
Proof. intros H. by apply all_chars_rstrip, all_chars_lstrip. Qed.

(** A piece of a split never contains the separator. *)
Lemma split_from_pieces sep cur s :
  all_chars (λ c, negb (Ascii.eqb c sep)) cur = true →
  Forall (λ x, all_chars (λ c, negb (Ascii.eqb c sep)) x = true)
         (Py.split_from sep cur s).
Proof.
  revert cur. induction s as [|c s IH]; intros cur Hcur; simpl.
  - by constructor.
  - destruct (Ascii.eqb c sep) eqn:E.
    + constructor; [done|]. by apply IH.
    + apply IH. rewrite all_chars_app, Hcur. simpl. by rewrite E.
Qed.

Lemma split_from_piece sep cur x :
  all_chars (λ c, negb (Ascii.eqb c sep)) x = true →
  Py.split_from sep cur x = [cur +:+ x].
Proof.
  revert cur. induction x as [|c x IH]; intros cur H; simpl.
  - by rewrite append_nil_r.
  - apply andb_true_iff in H as [Hc Hx]. apply negb_true_iff in Hc.
    rewrite Hc, (IH _ Hx), append_assoc. reflexivity.
Qed.

Lemma split_from_piece_sep sep cur x rest :
  all_chars (λ c, negb (Ascii.eqb c sep)) x = true →
  Py.split_from sep cur (x +:+ String sep rest)
  = (cur +:+ x) :: Py.split_from sep "" rest.
Proof.
  revert cur. induction x as [|c x IH]; intros cur H.
  - rewrite append_nil, append_nil_r. simpl. by rewrite Ascii.eqb_refl.
  - apply andb_true_iff in H as [Hc Hx]. apply negb_true_iff in Hc.
    rewrite append_cons. simpl. rewrite Hc, (IH _ Hx), append_assoc.
    reflexivity.
Qed.

(** Splitting a join of separator-free names gives the names back. *)
Lemma split_join sep x l :
  Forall (λ y, all_chars (λ c, negb (Ascii.eqb c sep)) y = true) (x :: l) →
  Py.split sep (Py.join (String sep "") (x :: l)) = x :: l.
Proof.
  unfold Py.split, Py.join. revert x.
  induction l as [|y l IH]; intros x H.
  - simpl. inversion H; subst. by rewrite split_from_piece.
  - rewrite concat_cons2. inversion H as [|? ? Hx Hl]; subst.
    change (String sep "" +:+ String.concat (String sep "") (y :: l))
      with (String sep (String.concat (String sep "") (y :: l))).
    rewrite (split_from_piece_sep sep "" x _ Hx). by rewrite (IH y Hl).
Qed.

Lemma filter_all (f : string → bool) l :
  Forall (λ x, f x = true) l → List.filter f l = l.
Proof.
  induction 1 as [|x l Hx _ IH]; simpl; [done|]. by rewrite Hx, IH.
Qed.

Lemma map_fixed (f : string → string) l :
  Forall (λ x, f x = x) l → map f l = l.
Proof. induction 1 as [|x l Hx _ IH]; simpl; [done|]. by rewrite Hx, IH. Qed.

Lemma names_list_of_pieces (conv : Conversation) :
  Forall (λ x, all_chars (λ c, negb (Ascii.eqb c ",")) x = true)
         (names_list_of conv).
Proof.
  unfold names_list_of, Py.split. apply Forall_map.
  eapply Forall_impl; [by apply split_from_pieces|].
  intros x Hx. by apply all_chars_strip.
Qed.

End Names.

(** X14: joining the pieces of a split with the separator gives the string
    back; so for a conversation that is not a team conversation, when the
    names of the channel name have no white space around them and none is
    the current user's, the display name is the channel name itself, which
    is also the conversation spec. *)
Theorem X14_display_name_of_others (conv : Conversation) (user : string) :
  (∀ s, Py.join "," (Py.split "," s) = s)
  ∧ (is_team (get_channel conv) = false →
     Forall (λ n, Py.strip n = n ∧ n ≠ user)
            (Py.split "," (default "" (name (get_channel conv)))) →
     conversation_display_name conv user = default "" (name (get_channel conv))
     ∧ conversation_display_name conv user = get_conversation_spec conv).
Proof.
  split; [intros s; apply (join_split_from "," "" s)|].
  intros Ht Hall.
  assert (conversation_display_name conv user = default "" (name (get_channel conv)))
    as E.
  { unfold conversation_display_name. rewrite Ht.
    rewrite (map_fixed Py.strip); [|eapply Forall_impl; [exact Hall|by intros ? []]].
    rewrite filter_all.
    - pose proof (split_from_nonempty "," "" (default "" (name (get_channel conv))))
        as Hne.
      unfold Py.split in *.
      destruct (Py.split_from _ _ _) eqn:Es; [done|].
      rewrite <- Es. apply (join_split_from "," "").
    - eapply Forall_impl; [exact Hall|]. intros n [_ Hn]. simpl.
      by apply negb_true_iff, String.eqb_neq. }
  split; [exact E|]. rewrite E. unfold get_conversation_spec. by rewrite Ht.
Qed.

Lemma X14_display_name_of_others_witness :
  conversation_display_name conv_ab "dave" = "alice,bob"
  ∧ get_conversation_spec conv_ab = "alice,bob".
Proof.
  assert (Forall (λ n, Py.strip n = n ∧ n ≠ "dave")
            (Py.split "," (default "" (name (get_channel conv_ab))))) as H.
  { repeat constructor; discriminate. }
  destruct (proj2 (X14_display_name_of_others conv_ab "dave") eq_refl H) as [H1 H2].
  split; [exact H1|reflexivity].
Defined.

(** X15: in the display name of a conversation that is not a team
    conversation, the current user's name is one of the comma-separated
    names only when every name of the channel is the user's. *)
Theorem X15_display_name_omits_user (conv : Conversation) (user : string) :
  is_team (get_channel conv) = false →
  user ∈ Py.split "," (conversation_display_name conv user) →
  Forall (λ n, n = user) (names_list_of conv).
Proof.
  intros Ht Hin.
  destruct (List.filter (fun n => negb (String.eqb n user)) (names_list_of conv))
    as [|x l] eqn:Ef; [by apply filter_nil_all|].
  exfalso.
  assert (conversation_display_name conv user = Py.join "," (x :: l)) as E.
  { unfold conversation_display_name. rewrite Ht.
    fold (names_list_of conv). by rewrite Ef. }
  rewrite E in Hin.
  assert (Forall (λ y, all_chars (λ c, negb (Ascii.eqb c ",")) y = true) (x :: l))
    as Hp.
  { rewrite <- Ef. apply Forall_forall. intros y Hy.
    apply list_elem_of_In, List.filter_In in Hy as [Hy _].
    pose proof (names_list_of_pieces conv) as Hall.
    rewrite Forall_forall in Hall. by apply Hall, list_elem_of_In. }
  rewrite (split_join "," x l Hp) in Hin.
  rewrite <- Ef in Hin.
  apply list_elem_of_In, List.filter_In in Hin as [_ Hu].
  by rewrite String.eqb_refl in Hu.
Qed.

Lemma X15_display_name_omits_user_witness :
  Forall (λ n, n = "alice") (names_list_of conv_self).
Proof.
  apply (X15_display_name_omits_user conv_self "alice"); [reflexivity|].
  change ("alice" ∈ ["alice"]). apply elem_of_cons. by left.
Defined.

(** ** The list of conversations *)

Section Selection.

Implicit Types (c d : Listed) (l convs : list Listed) (cfg : AppConfig).

Lemma insert_desc_perm c l : insert_desc c l ≡ₚ c :: l.
Proof.
  induction l as [|d l IH]; simpl; [done|].
  destruct (active_key c <? active_key d)%Z; [|done].
  rewrite IH. apply Permutation_swap.
Qed.

Lemma sorted_desc_perm l : sorted_desc l ≡ₚ l.
Proof.
  induction l as [|c l IH]; simpl; [done|].
  rewrite insert_desc_perm. by rewrite IH.
Qed.

Lemma insert_desc_hd c d l :
  (active_key c ≤ active_key d)%Z →
  HdRel (λ a b, (active_key b ≤ active_key a)%Z) d l →
  HdRel (λ a b, (active_key b ≤ active_key a)%Z) d (insert_desc c l).
Proof.
  intros Hcd Hd. destruct l as [|e l]; simpl; [by constructor|].
  destruct (active_key c <? active_key e)%Z; constructor; [|done].
  by inversion Hd.
Qed.

Lemma insert_desc_sorted c l :
  Sorted (λ a b, (active_key b ≤ active_key a)%Z) l →
  Sorted (λ a b, (active_key b ≤ active_key a)%Z) (insert_desc c l).
Proof.
  induction 1 as [|d l Hs IH Hd]; simpl; [by repeat constructor|].
  destruct (active_key c <? active_key d)%Z eqn:E.
  - apply Z.ltb_lt in E. constructor; [done|].
    apply insert_desc_hd; [lia|done].
  - apply Z.ltb_ge in E. constructor; [by constructor|by constructor].
Qed.

Lemma sorted_desc_sorted l :
  StronglySorted (λ a b, (active_key b ≤ active_key a)%Z) (sorted_desc l).
Proof.
  apply Sorted.Sorted_StronglySorted; [intros x y z ??; lia|].
  induction l as [|c l IH]; simpl; [constructor|by apply insert_desc_sorted].
Qed.

Lemma insert_desc_filter (k : Z) c l :
  List.filter (fun x => (active_key x =? k)%Z) (insert_desc c l)
  = List.filter (fun x => (active_key x =? k)%Z) (c :: l).
Proof.
  induction l as [|d l IH]; [done|]. simpl in *.
  destruct (active_key c <? active_key d)%Z eqn:E; [|done].
  apply Z.ltb_lt in E. simpl. rewrite IH.
  destruct (active_key c =? k)%Z eqn:Ec, (active_key d =? k)%Z eqn:Ed; try done.
  apply Z.eqb_eq in Ec, Ed. lia.
Qed.

Lemma strongly_sorted_app_elem (R : Listed → Listed → Prop) l1 l2 c d :
  StronglySorted R (l1 ++ l2) → c ∈ l1 → d ∈ l2 → R c d.
Proof.
  induction l1 as [|x l1 IH]; intros Hs Hc Hd; [inversion Hc|].
  inversion Hs as [|? ? Hs' Hall]; subst.
  apply elem_of_cons in Hc as [->|Hc]; [|by apply IH].
  rewrite Forall_forall in Hall. apply Hall, elem_of_app. by right.
Qed.

Lemma strongly_sorted_app_l (R : Listed → Listed → Prop) l1 l2 :
  StronglySorted R (l1 ++ l2) → StronglySorted R l1.
Proof.
  induction l1 as [|x l1 IH]; intros Hs; [constructor|].
  inversion Hs as [|? ? Hs' Hall]; subst.
  constructor; [by apply IH|]. by apply Forall_app in Hall as [? _].
Qed.

Lemma listed_conversations_take cfg convs :
  ∃ n : nat, listed_conversations cfg convs = take n (sorted_desc convs).
Proof.
  unfold listed_conversations. destruct (0 <? _)%Z; [by eexists|].
  exists (length (sorted_desc convs)). by rewrite firstn_all.
Qed.

Lemma list_items_texts (hide : list string) (user : string) convs item :
  item ∈ list_items hide user convs → hidden hide (snd item) = false.
Proof.
  induction convs as [|c convs IH]; simpl; [by inversion 1|].
  destruct (hidden hide (conversation_display_name (summary c) user)) eqn:E;
    [done|].
  intros [->|H]%elem_of_cons; [done|by apply IH].
Qed.

Lemma list_items_complete (hide : list string) (user : string) convs c :
  c ∈ convs →
  hidden hide (conversation_display_name (summary c) user) = false →
  ("conv_" +:+ str_of_id (conv_id (summary c)),
   conversation_display_name (summary c) user) ∈ list_items hide user convs.
Proof.
  induction convs as [|d convs IH]; [by inversion 1|].
  intros [->|H]%elem_of_cons Hh; simpl.
  - rewrite Hh. by left.
  - destruct (hidden hide (conversation_display_name (summary d) user));
      [by apply IH|]. right. by apply IH.
Qed.

Lemma list_items_length (hide : list string) (user : string) convs :
  length (list_items hide user convs) ≤ length convs.
Proof.
  induction convs as [|d convs IH]; simpl; [done|].
  destruct (hidden hide _); simpl; lia.
Qed.

Lemma contains_empty (s : string) : Py.contains "" s = true.
Proof. by destruct s. Qed.

Lemma list_items_all_hidden (hide : list string) (user : string) convs :
  "" ∈ hide → list_items hide user convs = [].
Proof.
  intros Hin.
  assert (∀ display, hidden hide display = true) as Hh.
  { intros display. apply existsb_exists. exists "".
    split; [by apply list_elem_of_In|]. apply contains_empty. }
  induction convs as [|d convs IH]; simpl; [done|]. by rewrite Hh.
Qed.

End Selection.

(** X16: the conversations of the selection screen are in order of
    [active_at], most recent first, and are conversations of the backend's
    list; without a positive [max_recent] they are all of them, and with
    one they are at most that many, and any conversation more recent than a
    kept one is kept too. *)
Theorem X16_listed_most_recent_first (cfg : AppConfig) (convs : list Listed) :
  StronglySorted (λ a b, (active_key b ≤ active_key a)%Z)
                 (listed_conversations cfg convs)
  ∧ listed_conversations cfg convs ⊆+ convs
  ∧ ((default 0 (max_recent cfg) ≤ 0)%Z → listed_conversations cfg convs ≡ₚ convs)
  ∧ ((0 < default 0 (max_recent cfg))%Z →
     length (listed_conversations cfg convs)
     = Z.to_nat (default 0%Z (max_recent cfg)) `min` length convs
     ∧ ∀ c d, c ∈ listed_conversations cfg convs → d ∈ convs →
              (active_key c < active_key d)%Z →
              d ∈ listed_conversations cfg convs).
Proof.
  destruct (listed_conversations_take cfg convs) as [n Hn].
  pose proof (sorted_desc_sorted convs) as Hs.
  split; [|split; [|split]].
  - rewrite Hn. rewrite <- (take_drop n (sorted_desc convs)) in Hs.
    by apply strongly_sorted_app_l in Hs.
  - rewrite Hn. etrans; [apply submseteq_take|].
    by rewrite sorted_desc_perm.
  - intros Hle. unfold listed_conversations.
    rewrite (proj2 (Z.ltb_ge _ _) Hle). apply sorted_desc_perm.
  - intros Hlt. unfold listed_conversations.
    rewrite (proj2 (Z.ltb_lt _ _) Hlt). split.
    + rewrite length_take. by rewrite (Permutation_length (sorted_desc_perm convs)).
    + intros c d Hc Hd Hlt'.
      assert (d ∈ sorted_desc convs) as Hd' by (by rewrite sorted_desc_perm).
      rewrite <- (take_drop (Z.to_nat (default 0%Z (max_recent cfg)))
                            (sorted_desc convs)) in Hd', Hs.
      apply elem_of_app in Hd' as [Hd'|Hd']; [done|].
      pose proof (strongly_sorted_app_elem _ _ _ c d Hs Hc Hd') as Hcd.
      simpl in Hcd. lia.
Qed.

Lemma X16_listed_most_recent_first_witness :
  map active_key
      (listed_conversations cfg_recent2
         [listed_at "a" "alice,bob" 5; listed_at "b" "alice,carol" 1;
          listed_at "c" "alice,dave" 9])
  = [9; 5]%Z
  ∧ length (listed_conversations cfg_recent2
              [listed_at "a" "alice,bob" 5; listed_at "b" "alice,carol" 1;
               listed_at "c" "alice,dave" 9])
    = 2 `min` 3.
Proof.
  split; [reflexivity|].
  assert (0 < default 0 (max_recent cfg_recent2))%Z as H by reflexivity.
  exact (proj1 (proj2 (proj2 (proj2 (X16_listed_most_recent_first cfg_recent2
           [listed_at "a" "alice,bob" 5; listed_at "b" "alice,carol" 1;
            listed_at "c" "alice,dave" 9]))) H)).
Defined.

(** X17: the sort is stable: conversations with the same [active_at] stay
    in the order the backend listed them. *)
Theorem X17_sort_keeps_backend_order_of_ties (k : Z) (convs : list Listed) :
  List.filter (fun c => (active_key c =? k)%Z) (sorted_desc convs)
  = List.filter (fun c => (active_key c =? k)%Z) convs.
Proof.
  induction convs as [|c convs IH]; [done|].
  change (sorted_desc (c :: convs)) with (insert_desc c (sorted_desc convs)).
  rewrite insert_desc_filter. simpl. by rewrite IH.
Qed.

(** X18: no item of the list view has a text that contains, letter case
    aside, one of the hidden names, and every kept conversation whose
    display name contains none has its item; an empty hidden name hides
    every conversation; and since hiding comes after the cut to
    [max_recent], there are at most as many items as kept conversations. *)
Theorem X18_hidden_names (cfg : AppConfig) (user : string) (convs : list Listed) :
  (∀ item h, item ∈ selection_items cfg user convs →
             h ∈ default [] (hide_names cfg) →
             Py.contains (Py.lower h) (Py.lower (snd item)) = false)
  ∧ (∀ c, c ∈ listed_conversations cfg convs →
          hidden (default [] (hide_names cfg))
                 (conversation_display_name (summary c) user) = false →
          ("conv_" +:+ str_of_id (conv_id (summary c)),
           conversation_display_name (summary c) user)
          ∈ selection_items cfg user convs)
  ∧ ("" ∈ default [] (hide_names cfg) → selection_items cfg user convs = [])
  ∧ length (selection_items cfg user convs)
    ≤ length (listed_conversations cfg convs).
Proof.
  unfold selection_items. split; [|split; [|split]].
  - intros item h Hi Hh. apply list_items_texts in Hi.
    unfold hidden in Hi.
    destruct (Py.contains (Py.lower h) (Py.lower (snd item))) eqn:E; [|done].
    assert (existsb (fun h => Py.contains (Py.lower h) (Py.lower (snd item)))
                    (default [] (hide_names cfg)) = true) as Ht.
    { apply existsb_exists. exists h. split; [by apply list_elem_of_In|done]. }
    congruence.
  - intros c Hc Hh. by apply list_items_complete.
  - apply list_items_all_hidden.
  - apply list_items_length.
Qed.

Lemma X18_hidden_names_witness :
  selection_items cfg_recent2 "alice"
    [listed_at "a" "alice,chatbot" 5; listed_at "b" "alice,carol" 1;
     listed_at "c" "alice,dave" 9]
  = [("conv_c", "dave")]
  ∧ Py.contains (Py.lower "Bot") (Py.lower "dave") = false.
Proof.
  split; [reflexivity|].
  apply (proj1 (X18_hidden_names cfg_recent2 "alice"
                  [listed_at "a" "alice,chatbot" 5; listed_at "b" "alice,carol" 1;
                   listed_at "c" "alice,dave" 9]) ("conv_c", "dave") "Bot").
  - change (("conv_c", "dave") ∈ [("conv_c", "dave")]). apply elem_of_cons. by left.
  - change ("Bot" ∈ ["Bot"]). apply elem_of_cons. by left.
Defined.

(** ** Selecting a conversation *)

Section Select.

Implicit Types (c conv : Listed) (convs : list Listed) (i s : string).

Lemma replace_from_absent (old new s : string) :
  Py.contains old s = false → Py.replace_from 0 old new s = s.
Proof.
  induction s as [|ch s IH]; [done|].
  intros H. simpl in H. apply orb_false_iff in H as [H1 H2].
  simpl in *. rewrite H1. by rewrite (IH H2).
Qed.

Lemma replace_item_id i :
  Py.contains "conv_" i = false → Py.replace "conv_" "" ("conv_" +:+ i) = i.
Proof.
  intros H. unfold Py.replace.
  change ("conv_" +:+ i) with (String "c" (String "o" (String "n" (String "v" (String "_" i))))).
  simpl. rewrite append_nil. by apply replace_from_absent.
Qed.

Lemma find_conversation_unique convs conv :
  NoDup (map (λ c, str_of_id (conv_id (summary c))) convs) →
  conv ∈ convs →
  find_conversation convs (str_of_id (conv_id (summary conv))) = Some conv.
Proof.
  unfold find_conversation.
  induction convs as [|d convs IH]; intros Hnd Hin; [inversion Hin|].
  simpl in *. apply NoDup_cons in Hnd as [Hd Hnd].
  destruct (String.eqb _ _) eqn:E.
  - apply String.eqb_eq in E.
    apply elem_of_cons in Hin as [->|Hin]; [done|].
    exfalso. apply Hd. rewrite E.
    apply (list_elem_of_fmap_2 (λ c, str_of_id (conv_id (summary c)))), Hin.
  - apply elem_of_cons in Hin as [->|Hin]; [|by apply IH].
    by rewrite String.eqb_refl in E.
Qed.

Lemma rstrip_cons (ch : ascii) s :
  Py.rstrip (String ch s)
  = match Py.rstrip s with
    | EmptyString => if Py.isspace ch then EmptyString else String ch EmptyString
    | String a b => String ch (String a b)
    end.
Proof. reflexivity. Qed.

Lemma rstrip_rstrip s : Py.rstrip (Py.rstrip s) = Py.rstrip s.
Proof.
  induction s as [|ch s IH]; [done|]. rewrite rstrip_cons.
  destruct (Py.rstrip s) as [|r0 r] eqn:E.
  - destruct (Py.isspace ch) eqn:Es; [done|]. simpl. by rewrite Es.
  - rewrite rstrip_cons. by rewrite IH.
Qed.

Lemma strip_strip s : Py.strip (Py.strip s) = Py.strip s.
Proof.
  unfold Py.strip at 1. rewrite lstrip_strip. unfold Py.strip.
  apply rstrip_rstrip.
Qed.

End Select.

(** X19: selecting the item of a conversation of the selection screen
    opens the chat of that very conversation, provided the identifiers of
    the screen's conversations are pairwise distinct and the conversation's
    identifier does not contain the item prefix [conv_]. *)
Theorem X19_select_opens_the_conversation (env : Env) (cfg : AppConfig)
  (user : string) (convs : list Listed) (conv : Listed) (i : string) (w : World) :
  conv ∈ convs →
  conv_id (summary conv) = Some i →
  Py.contains "conv_" i = false →
  NoDup (map (λ c, str_of_id (conv_id (summary c))) convs) →
  on_list_view_selected env cfg user convs
    ("conv_" +:+ str_of_id (conv_id (summary conv))) w
  = (Some (fst (open_chat env (summary conv) (chat_keys cfg) user w)),
     snd (open_chat env (summary conv) (chat_keys cfg) user w)).
Proof.
  intros Hin Hi Hc Hnd. unfold on_list_view_selected.
  pose proof (find_conversation_unique convs conv Hnd Hin) as Hf.
  rewrite Hi in *. simpl str_of_id in *.
  rewrite (replace_item_id i Hc), Hf.
  unfold dict_truthy. rewrite Hi.
  by destruct (open_chat _ _ _ _ _).
Qed.

Lemma X19_select_opens_the_conversation_witness :
  screen_stack
    (snd (on_list_view_selected env_connected cfg_recent2 "alice"
            [listed_at "c9" "alice,dave" 9; listed_at "a5" "alice,bob" 5]
            "conv_a5"
            {| log := []; clock_reads := 0;
               screen_stack := [ConversationSelectionScreen [conv_ab]];
               exited := false |}))
  = [ChatScreenOf (summary (listed_at "a5" "alice,bob" 5));
     ConversationSelectionScreen [conv_ab]].
Proof.
  assert (NoDup (map (λ c, str_of_id (conv_id (summary c)))
                     [listed_at "c9" "alice,dave" 9; listed_at "a5" "alice,bob" 5]))
    as Hnd.
  { change (NoDup ["c9"; "a5"]).
    apply NoDup_cons; split;
      [rewrite elem_of_cons; intros [H|H]; [discriminate|inversion H]|].
    apply NoDup_cons; split; [intros H; inversion H|constructor]. }
  assert (listed_at "a5" "alice,bob" 5
          ∈ [listed_at "c9" "alice,dave" 9; listed_at "a5" "alice,bob" 5]) as Hin.
  { apply elem_of_cons. right. apply elem_of_cons. by left. }
  pose proof (X19_select_opens_the_conversation env_connected cfg_recent2 "alice"
                _ _ "a5"
                {| log := []; clock_reads := 0;
                   screen_stack := [ConversationSelectionScreen [conv_ab]];
                   exited := false |} Hin eq_refl eq_refl Hnd) as H.
  simpl str_of_id in H. change ("conv_" +:+ "a5") with "conv_a5" in H.
  rewrite H. reflexivity.
Defined.

(** X20: [get_current_user] gives a name exactly when [keybase whoami]
    exits with status zero, and the name then has no white space around
    it: stripping it again changes nothing.  The same holds for the text of
    a message that is sent. *)
Theorem X20_stripped_names_and_messages (proc : Completed) (value : string) :
  (get_current_user proc = None ↔ returncode proc ≠ 0%Z)
  ∧ (∀ u, get_current_user proc = Some u → Py.strip u = u)
  ∧ Py.strip (Py.strip value) = Py.strip value.
Proof.
  unfold get_current_user. split; [|split].
  - destruct (returncode proc =? 0)%Z eqn:E; simpl.
    + apply Z.eqb_eq in E. split; [discriminate|congruence].
    + apply Z.eqb_neq in E. done.
  - intros u. destruct (negb _); [discriminate|].
    intros [= <-]. apply strip_strip.
  - apply strip_strip.
Qed.

(** ** Opening a chat *)

Section Open.

Variable env : Env.

Implicit Types (self : ChatScreen) (w : World) (s cur : string).

Lemma mount_lines_running self (lines : list string) :
  running (mount_lines self lines) = running self.
Proof.
  revert self. induction lines as [|line lines IH]; intros self; [done|].
  rewrite mount_lines_cons, IH. unfold mount_line.
  by destruct (Py.re_match_id line).
Qed.

Lemma splitlines_from_plain cur s :
  all_chars (λ c, negb (Py.islinebreak c)) s = true →
  Py.splitlines_from cur s
  = match cur +:+ s with EmptyString => [] | t => [t] end.
Proof.
  revert cur. induction s as [|c s IH]; intros cur H; simpl.
  - rewrite append_nil_r. by destruct cur.
  - apply andb_true_iff in H as [Hc Hs]. apply negb_true_iff in Hc.
    rewrite Hc, (IH _ Hs), append_assoc. reflexivity.
Qed.

Lemma poll_batches_message_list self (batches : list (list string)) :
  ∃ added,
    message_list (fold_left poll_lines batches self) = message_list self ++ added
    ∧ sublist added (concat batches).
Proof.
  revert self. induction batches as [|b bs IH]; intros self; simpl.
  - exists []. by rewrite app_nil_r.
  - destruct (IH (poll_lines self b)) as (added & -> & Hsub).
    rewrite poll_lines_message_list, <- app_assoc.
    eexists. split; [done|].
    apply sublist_app; [apply fresh_lines_sublist|done].
Qed.

Lemma open_chat_spec (conv : Conversation) (cfg : Config) (user : string) w :
  log (snd (open_chat env conv cfg user w))
  = log w ++ [Exec (ReadAtLeast (default 10%Z (read_at_least cfg))
                                (get_conversation_spec conv))]
  ∧ screen_stack (snd (open_chat env conv cfg user w))
    = ChatScreenOf conv :: screen_stack w
  ∧ message_list (fst (open_chat env conv cfg user w))
    = Py.splitlines (fst (read_previous_messages env conv cfg w))
  ∧ seen_ids (fst (open_chat env conv cfg user w))
    = list_to_set (line_ids (message_list (fst (open_chat env conv cfg user w))))
  ∧ listen_task (fst (open_chat env conv cfg user w)) = Scheduled
  ∧ running (fst (open_chat env conv cfg user w)) = true.
Proof.
  unfold open_chat, ChatScreen_init, now. rewrite on_mount_eq. simpl.
  rewrite mount_lines_message_list, mount_lines_seen_ids, mount_lines_running.
  simpl. unfold read_previous_messages, exec. simpl.
  destruct (negb _); simpl; repeat split; set_solver.
Qed.

End Open.

(** X21: opening a chat pushes its screen, makes the one backend call that
    reads the previous messages (at least [read_at_least] of them, 10 when
    the key is missing), displays every line read, starts the polling task,
    and leaves in [seen_ids] exactly the identifiers of the displayed
    lines. *)
Theorem X21_open_chat (env : Env) (conv : Conversation) (cfg : Config)
  (user : string) (w : World) :
  log (snd (open_chat env conv cfg user w))
  = log w ++ [Exec (ReadAtLeast (default 10%Z (read_at_least cfg))
                                (get_conversation_spec conv))]
  ∧ screen_stack (snd (open_chat env conv cfg user w))
    = ChatScreenOf conv :: screen_stack w
  ∧ message_list (fst (open_chat env conv cfg user w))
    = Py.splitlines (fst (read_previous_messages env conv cfg w))
  ∧ seen_ids (fst (open_chat env conv cfg user w))
    = list_to_set (line_ids (message_list (fst (open_chat env conv cfg user w))))
  ∧ listen_task (fst (open_chat env conv cfg user w)) = Scheduled
  ∧ running (fst (open_chat env conv cfg user w)) = true.
Proof. apply open_chat_spec. Qed.

(** X22: when reading the previous messages fails and the stripped error
    output has no line break in it, the opened chat displays the single
    line made of the fixed prefix and that output, records no identifier,
    and its polling task is started all the same. *)
Theorem X22_open_chat_read_failure (env : Env) (conv : Conversation)
  (cfg : Config) (user : string) (w : World) :
  let proc :=
    run env (log w)
        (ReadAtLeast (default 10%Z (read_at_least cfg)) (get_conversation_spec conv)) in
  returncode proc ≠ 0%Z →
  all_chars (λ c, negb (Py.islinebreak c)) (Py.strip (stderr proc)) = true →
  message_list (fst (open_chat env conv cfg user w))
  = ["Error reading previous messages: " +:+ Py.strip (stderr proc)]
  ∧ seen_ids (fst (open_chat env conv cfg user w)) = ∅
  ∧ listen_task (fst (open_chat env conv cfg user w)) = Scheduled.
Proof.
  intros proc Hr Hb.
  destruct (open_chat_spec env conv cfg user w) as (_ & _ & Hm & Hs & Ht & _).
  assert (message_list (fst (open_chat env conv cfg user w))
          = ["Error reading previous messages: " +:+ Py.strip (stderr proc)]) as E.
  { rewrite Hm. unfold read_previous_messages, exec. fold proc.
    apply Z.eqb_neq in Hr. rewrite Hr. simpl fst.
    unfold Py.splitlines. rewrite splitlines_from_plain.
    - reflexivity.
    - rewrite all_chars_app, Hb. reflexivity. }
  split; [exact E|]. split; [|exact Ht]. rewrite Hs, E. reflexivity.
Qed.

Lemma X22_open_chat_read_failure_witness :
  message_list (fst (open_chat env_down conv_ab cfg0 "alice" world0))
  = ["Error reading previous messages: network unreachable"].
Proof.
  assert (1 ≠ 0)%Z as Hr by discriminate.
  exact (proj1 (X22_open_chat_read_failure env_down conv_ab cfg0 "alice" world0
                  Hr eq_refl)).
Defined.

(** X23: display order is arrival order: what a sequence of poll batches
    adds to the display is a subsequence of the batches laid end to end, so
    lines are never reordered, within a batch or across batches. *)
Theorem X23_display_order_is_arrival_order (self : ChatScreen)
  (batches : list (list string)) :
  ∃ added,
    message_list (fold_left poll_lines batches self) = message_list self ++ added
    ∧ sublist added (concat batches).
Proof. apply poll_batches_message_list. Qed.

(** ** Parsing a command line *)

Section Parse.

Implicit Types (s x y word gap arg pre post : string) (c sp : ascii).

Lemma lstrip_app_space pre s :
  all_chars Py.isspace pre = true → Py.lstrip (pre +:+ s) = Py.lstrip s.
Proof.
  induction pre as [|c pre IH]; [done|].
  intros [Hc Hp]%andb_true_iff. rewrite append_cons. simpl. rewrite Hc.
  by apply IH.
Qed.

Lemma all_space_rstrip s : all_chars Py.isspace s = true → Py.rstrip s = "".
Proof.
  induction s as [|c s IH]; [done|].
  intros [Hc Hs]%andb_true_iff. rewrite rstrip_cons, (IH Hs). by rewrite Hc.
Qed.

Lemma rstrip_app_space x post :
  all_chars Py.isspace post = true → Py.rstrip (x +:+ post) = Py.rstrip x.
Proof.
  intros Hp. induction x as [|c x IH].
  - rewrite append_nil. simpl. by apply all_space_rstrip.
  - rewrite append_cons, !rstrip_cons. by rewrite IH.
Qed.

Lemma rstrip_app x y :
  Py.rstrip y ≠ "" → Py.rstrip (x +:+ y) = x +:+ Py.rstrip y.
Proof.
  intros Hy. induction x as [|c x IH]; [done|].
  rewrite !append_cons, rstrip_cons, IH.
  destruct (x +:+ Py.rstrip y) eqn:E; [|done].
  destruct x; [by rewrite append_nil in E|by rewrite append_cons in E].
Qed.

Lemma span_word_app word sp s :
  all_chars (λ c, negb (Py.isspace c)) word = true → Py.isspace sp = true →
  Py.span_word (word +:+ String sp s) = (word, String sp s).
Proof.
  intros Hw Hs. induction word as [|c word IH].
  - rewrite append_nil. simpl. by rewrite Hs.
  - apply andb_true_iff in Hw as [Hc Hw]. apply negb_true_iff in Hc.
    rewrite append_cons. simpl. rewrite Hc. by rewrite (IH Hw).
Qed.

Lemma span_word_all word :
  all_chars (λ c, negb (Py.isspace c)) word = true →
  Py.span_word word = (word, "").
Proof.
  induction word as [|c word IH]; [done|].
  intros [Hc Hw]%andb_true_iff. apply negb_true_iff in Hc.
  simpl. rewrite Hc. by rewrite (IH Hw).
Qed.

Lemma all_nonspace_rstrip word :
  all_chars (λ c, negb (Py.isspace c)) word = true → Py.rstrip word = word.
Proof.
  induction word as [|c word IH]; [done|].
  intros [Hc Hw]%andb_true_iff. apply negb_true_iff in Hc.
  rewrite rstrip_cons, (IH Hw). destruct word; [by rewrite Hc|done].
Qed.

Lemma stripped_head arg :
  Py.strip arg = arg → arg ≠ "" →
  ∃ c t, arg = String c t ∧ Py.isspace c = false ∧ Py.rstrip arg = arg.
Proof.
  intros Hs Hne.
  destruct (strip_head arg) as [E|(c & t & E & Hc)]; [congruence|].
  rewrite Hs in E. exists c, t. split; [done|]. split; [done|].
  unfold Py.strip in Hs. rewrite E in Hs. simpl in Hs. rewrite Hc in Hs.
  by rewrite E.
Qed.

(** A word, a gap of white space and an argument, with white space around
    them, split into the word and the argument. *)
Lemma split_command_line pre word gap arg post :
  all_chars Py.isspace pre = true →
  word ≠ "" → all_chars (λ c, negb (Py.isspace c)) word = true →
  gap ≠ "" → all_chars Py.isspace gap = true →
  Py.strip arg = arg → arg ≠ "" →
  all_chars Py.isspace post = true →
  Py.split_maxsplit1 (Py.strip (pre +:+ word +:+ gap +:+ arg +:+ post))
  = [word; arg].
Proof.
  intros Hpre Hw Hwn Hg Hgs Ha Han Hpost.
  destruct (stripped_head arg Ha Han) as (c & t & Ea & Hc & Hra).
  destruct word as [|w0 word]; [done|].
  destruct gap as [|sp gap]; [done|].
  pose proof Hwn as Hwn'. pose proof Hgs as Hgs'.
  apply andb_true_iff in Hwn' as [Hw0 _]. apply negb_true_iff in Hw0.
  apply andb_true_iff in Hgs' as [Hsp _].
  assert (Py.strip (pre +:+ String w0 word +:+ String sp gap +:+ arg +:+ post)
          = String w0 word +:+ String sp gap +:+ arg) as Es.
  { unfold Py.strip. rewrite (lstrip_app_space pre _ Hpre).
    rewrite append_cons. simpl Py.lstrip. rewrite Hw0.
    rewrite <- append_cons.
    rewrite <- (append_assoc (String sp gap) arg post).
    rewrite <- (append_assoc (String w0 word) (String sp gap +:+ arg) post).
    rewrite (rstrip_app_space _ post Hpost).
    assert (Py.rstrip (String sp gap +:+ arg) = String sp gap +:+ arg) as Eg.
    { rewrite rstrip_app; rewrite Hra; [done|by rewrite Ea]. }
    rewrite rstrip_app; rewrite Eg; [done|]. by rewrite append_cons. }
  rewrite Es. unfold Py.split_maxsplit1.
  rewrite append_cons. simpl Py.lstrip. rewrite Hw0. rewrite <- append_cons.
  rewrite append_cons at 1.
  change (String sp gap +:+ arg) with (String sp (gap +:+ arg)).
  rewrite <- append_cons.
  rewrite (span_word_app (String w0 word) sp (gap +:+ arg) Hwn Hsp).
  rewrite <- append_cons, (lstrip_app_space (String sp gap) arg Hgs).
  rewrite Ea. simpl. by rewrite Hc.
Qed.

Lemma split_command_word pre word post :
  all_chars Py.isspace pre = true →
  word ≠ "" → all_chars (λ c, negb (Py.isspace c)) word = true →
  all_chars Py.isspace post = true →
  Py.split_maxsplit1 (Py.strip (pre +:+ word +:+ post)) = [word].
Proof.
  intros Hpre Hw Hwn Hpost.
  destruct word as [|w0 word]; [done|].
  pose proof Hwn as Hwn'.
  apply andb_true_iff in Hwn' as [Hw0 _]. apply negb_true_iff in Hw0.
  assert (Py.strip (pre +:+ String w0 word +:+ post) = String w0 word) as Es.
  { unfold Py.strip. rewrite (lstrip_app_space pre _ Hpre).
    rewrite append_cons. simpl Py.lstrip. rewrite Hw0. rewrite <- append_cons.
    rewrite (rstrip_app_space _ post Hpost). by apply all_nonspace_rstrip. }
  rewrite Es. unfold Py.split_maxsplit1. simpl Py.lstrip. rewrite Hw0.
  by rewrite (span_word_all _ Hwn).
Qed.

End Parse.

(** X24: an input written as a word, white space, and an argument that has
    no white space around it, with any white space before and after, is
    parsed into the lowercased word and exactly that argument, the white
    space inside the argument included; without an argument it is parsed
    into the lowercased word and the empty argument. *)
Theorem X24_command_line_parse (pre word gap arg post : string) :
  all_chars Py.isspace pre = true →
  word ≠ "" → all_chars (λ c, negb (Py.isspace c)) word = true →
  all_chars Py.isspace post = true →
  (gap ≠ "" → all_chars Py.isspace gap = true →
   Py.strip arg = arg → arg ≠ "" →
   command_of (Py.split_maxsplit1
                 (Py.strip (pre +:+ word +:+ gap +:+ arg +:+ post)))
   = (Py.lower word, arg))
  ∧ command_of (Py.split_maxsplit1 (Py.strip (pre +:+ word +:+ post)))
    = (Py.lower word, "").
Proof.
  intros Hpre Hw Hwn Hpost. split.
  - intros Hg Hgs Ha Han.
    by rewrite (split_command_line pre word gap arg post).
  - by rewrite (split_command_word pre word post).
Qed.

Lemma X24_command_line_parse_witness :
  command_of (Py.split_maxsplit1 (Py.strip (" " +:+ "/AF" +:+ "  " +:+ "my notes.txt" +:+ " ")))
  = ("/af", "my notes.txt")
  ∧ command_of (Py.split_maxsplit1 (Py.strip (" " +:+ "/AF" +:+ " ")))
    = ("/af", "").
Proof.
  assert ("/AF" ≠ "") as Hw by discriminate.
  assert ("  " ≠ "") as Hg by discriminate.
  assert ("my notes.txt" ≠ "") as Ha by discriminate.
  destruct (X24_command_line_parse " " "/AF" "  " "my notes.txt" " "
              eq_refl Hw eq_refl eq_refl) as [H1 H2].
  split; [exact (H1 Hg eq_refl eq_refl Ha)|exact H2].
Defined.
